(** * Verification of the OpenADR 2.0 VEN event handler (src/oadr2/event.py)

    Shallow embedding of [EventHandler.handle_payload] and the record
    accessors it uses.  XML elements are represented by the values lxml's
    [findtext] / [iterfind] calls extract from them: an element text is
    [option string] ([None] when the element is absent), the lists of
    [iterfind] are Rocq lists in document order.  Exceptions raised by the
    Python code are the [None] outcome of the state monad [M]; database
    writes performed before an exception stay performed. *)

From Stdlib Require Import ZArith Ascii String.
From stdpp Require Import base gmap list strings.

Open Scope Z_scope.

(** ** Data model *)

(** The text of an XML element as returned by lxml's [findtext]. *)
Abbreviation text := (option string).

(** [ei:interval]: [xcal:duration/xcal:duration], [xcal:uid/xcal:text],
    [ei:signalPayload//ei:value]. *)
Record Interval := mkInterval {
  iv_duration : text;
  iv_uid : text;
  iv_value : text
}.

(** [ei:eiEventSignal]: [ei:signalName], [ei:signalType] and its
    [strm:intervals/ei:interval] children. *)
Record EiEventSignal := mkSignal {
  sig_name : text;
  sig_type : text;
  sig_intervals : list Interval
}.

(** [ei:eiEvent], by the values the accessor functions of the module read
    from it.  [ev_mod] is the result of [int(findtext(...modificationNumber))]:
    [None] when [int] raises (element missing or text not an integer). *)
Record EiEvent := mkEiEvent {
  ev_id : text;
  ev_mod : option Z;
  ev_status : text;
  ev_market_context : text;
  ev_dtstart : text;
  ev_start_before : text;
  ev_start_after : text;
  ev_party_ids : list text;
  ev_group_ids : list text;
  ev_resource_ids : list text;
  ev_ven_ids : list text;
  ev_signals : list EiEventSignal
}.

(** [oadr:oadrEvent]: the [oadr:oadrResponseRequired] text and the nested
    [ei:eiEvent] ([None] when [find] finds none). *)
Record OadrEvent := mkOadrEvent {
  oe_response_required : text;
  oe_ei_event : option EiEvent
}.

(** [oadr:oadrDistributeEvent]. *)
Record Payload := mkPayload {
  pl_request_id : text;
  pl_vtn_id : text;
  pl_events : list OadrEvent
}.

(** A reply tuple [(e_id, e_mod_num, requestID, opt, status)]. *)
Record Decision := mkDecision {
  d_id : text;
  d_mod : Z;
  d_request_id : text;
  d_opt : string;
  d_status : string
}.

(** The value returned by [handle_payload]: [None], the payload of
    [build_created_payload] or that of [build_error_response]. *)
Inductive Reply :=
| NoReply
| CreatedPayload (events : list Decision)
| ErrorResponse (request_id : text) (code : string) (description : string).

(** ** Python helpers *)

(** Truth value of a Python string / list / optional string. *)
Definition truthy_text (t : text) : bool :=
  match t with Some s => negb (bool_decide (s = ""%string)) | None => false end.

Definition truthy_list {A} (l : list A) : bool :=
  match l with [] => false | _ => true end.

(** [x in l] for a list: membership by [==]. *)
Definition py_in {A} `{EqDecision A} (x : A) (l : list A) : bool :=
  existsb (fun y => bool_decide (x = y)) l.

(** [str.split(',')]. *)
Fixpoint split_comma (s : string) : list string :=
  match s with
  | EmptyString => [EmptyString]
  | String a s' =>
      let rest := split_comma s' in
      if bool_decide (a = ","%char) then EmptyString :: rest
      else match rest with
           | x :: r => String a x :: r
           | [] => [String a EmptyString]
           end
  end.

(** ["%s" % x] for an optional string. *)
Definition py_str (t : text) : string :=
  match t with Some s => s | None => "None"%string end.

(** ** Module constants and the handler's configuration *)

Definition OADR_XMLNS_A := "http://openadr.org/oadr-2.0a/2012/07"%string.
Definition PYLD_XMLNS_A := "http://docs.oasis-open.org/ns/energyinterop/201110/payloads"%string.
Definition EI_XMLNS_A := "http://docs.oasis-open.org/ns/energyinterop/201110"%string.
Definition EMIX_XMLNS_A := "http://docs.oasis-open.org/ns/emix/2011/06"%string.
Definition XCAL_XMLNS_A := "urn:ietf:params:xml:ns:icalendar-2.0"%string.
Definition STRM_XMLNS_A := "urn:ietf:params:xml:ns:icalendar-2.0:stream"%string.

Definition NS_A : list (string * string) :=
  [("oadr", OADR_XMLNS_A); ("pyld", PYLD_XMLNS_A); ("ei", EI_XMLNS_A);
   ("emix", EMIX_XMLNS_A); ("xcal", XCAL_XMLNS_A); ("strm", STRM_XMLNS_A)]%string.

Definition OADR_XMLNS_B := "http://openadr.org/oadr-2.0b/2012/07"%string.
Definition DSIG11_XMLNS_B := "http://www.w3.org/2009/xmldsig11#"%string.
Definition DS_XMLNS_B := "http://www.w3.org/2000/09/xmldsig#"%string.
Definition CLM5ISO42173A_XMLNS_B := "urn:un:unece:uncefact:codelist:standard:5:ISO42173A:2010-04-07"%string.
Definition SCALE_XMLNS_B := "http://docs.oasis-open.org/ns/emix/2011/06/siscale"%string.
Definition POWER_XMLNS_B := "http://docs.oasis-open.org/ns/emix/2011/06/power"%string.
Definition GB_XMLNS_B := "http://naesb.org/espi"%string.
Definition ATOM_XMLNS_B := "http://www.w3.org/2005/Atom"%string.
Definition CCTS_XMLNS_B := "urn:un:unece:uncefact:documentation:standard:CoreComponentsTechnicalSpecification:2"%string.
Definition GML_XMLNS_B := "http://www.opengis.net/gml/3.2"%string.
Definition GMLSF_XMLNS_B := "http://www.opengis.net/gmlsf/2.0"%string.
Definition XSI_XMLNS_B := "http://www.w3.org/2001/XMLSchema-instance"%string.

Definition NS_B : list (string * string) :=
  [("oadr", OADR_XMLNS_B); ("pyld", PYLD_XMLNS_A); ("ei", EI_XMLNS_A);
   ("emix", EMIX_XMLNS_A); ("xcal", XCAL_XMLNS_A); ("strm", STRM_XMLNS_A);
   ("dsig11", DSIG11_XMLNS_B); ("ds", DS_XMLNS_B);
   ("clm", CLM5ISO42173A_XMLNS_B); ("scale", SCALE_XMLNS_B);
   ("power", POWER_XMLNS_B); ("gb", GB_XMLNS_B); ("atom", ATOM_XMLNS_B);
   ("ccts", CCTS_XMLNS_B); ("gml", GML_XMLNS_B); ("gmlsf", GMLSF_XMLNS_B);
   ("xsi", XSI_XMLNS_B)]%string.

Definition VALID_SIGNAL_TYPES : list string :=
  ["level"; "price"; "delta"; "setpoint"]%string.
Definition OADR_PROFILE_20A := "2.0a"%string.
Definition OADR_PROFILE_20B := "2.0b"%string.

(** The member variables of an [EventHandler]; [has_callback] says whether
    [event_callback] is not [None]. *)
Record EventHandler := mkHandler {
  vtn_ids : option (list string);
  market_contexts : option (list string);
  group_id : text;
  resource_id : text;
  party_id : text;
  ven_id : text;
  has_callback : bool;
  oadr_profile_level : string;
  ns_map : list (string * string)
}.

(** [EventHandler.__init__] (the [database.DBHandler()] construction is the
    store of the world below). *)
Definition EventHandler_init (ven_id : text) (vtn_ids : option string)
    (market_contexts : option string) (group_id resource_id party_id : text)
    (oadr_profile_level : string) (event_callback : bool) : EventHandler :=
  let vtn_ids := option_map split_comma vtn_ids in
  let market_contexts := option_map split_comma market_contexts in
  let '(level, nsm) :=
    if bool_decide (oadr_profile_level = OADR_PROFILE_20A) then
      (oadr_profile_level, NS_A)
    else if bool_decide (oadr_profile_level = OADR_PROFILE_20B) then
      (oadr_profile_level, NS_B)
    else (OADR_PROFILE_20A, NS_A) in
  {| vtn_ids := vtn_ids; market_contexts := market_contexts;
     group_id := group_id; resource_id := resource_id; party_id := party_id;
     ven_id := ven_id; has_callback := event_callback;
     oadr_profile_level := level; ns_map := nsm |}.

(** ** Record accessors (module-level functions of event.py) *)

Definition get_event_id (evt : EiEvent) : text := ev_id evt.
Definition get_market_context (evt : EiEvent) : text := ev_market_context evt.
Definition get_party_ids (evt : EiEvent) : list text := ev_party_ids evt.
Definition get_group_ids (evt : EiEvent) : list text := ev_group_ids evt.
Definition get_resource_ids (evt : EiEvent) : list text := ev_resource_ids evt.
Definition get_ven_ids (evt : EiEvent) : list text := ev_ven_ids evt.
Definition get_start_before_after (evt : EiEvent) : text * text :=
  (ev_start_before evt, ev_start_after evt).

(** [signal_type in VALID_SIGNAL_TYPES] ([None] is in no tuple of strings). *)
Definition valid_signal_type (t : text) : bool :=
  match t with Some s => py_in s VALID_SIGNAL_TYPES | None => false end.

(** The loop of [get_signals] that picks [simple_signal]: every qualifying
    definition overwrites the previous choice. *)
Definition select_simple_signal (sigs : list EiEventSignal) : option EiEventSignal :=
  foldl (fun simple_signal signal =>
           if bool_decide (sig_name signal = Some "simple"%string)
              && valid_signal_type (sig_type signal)
           then Some signal else simple_signal)
        None sigs.

Definition get_signals (evt : EiEvent) : option (list (text * text * text)) :=
  match select_simple_signal (ev_signals evt) with
  | None => None
  | Some simple_signal =>
      Some (map (fun i => (iv_duration i, iv_uid i, iv_value i))
                (sig_intervals simple_signal))
  end.

(** [set_active_period_start]: rewrites the [xcal:date-time] text. *)
Definition set_active_period_start (evt : EiEvent) (s : string) : EiEvent :=
  {| ev_id := ev_id evt; ev_mod := ev_mod evt; ev_status := ev_status evt;
     ev_market_context := ev_market_context evt; ev_dtstart := Some s;
     ev_start_before := ev_start_before evt;
     ev_start_after := ev_start_after evt;
     ev_party_ids := ev_party_ids evt; ev_group_ids := ev_group_ids evt;
     ev_resource_ids := ev_resource_ids evt; ev_ven_ids := ev_ven_ids evt;
     ev_signals := ev_signals evt |}.

(** [EventHandler.check_target_info]. *)
Definition check_target_info (h : EventHandler) (evt : EiEvent) : bool :=
  let accept := true in
  let party_ids := get_party_ids evt in
  let group_ids := get_group_ids evt in
  let resource_ids := get_resource_ids evt in
  let ven_ids := get_ven_ids evt in
  if truthy_list party_ids || truthy_list group_ids
     || truthy_list resource_ids || truthy_list ven_ids then
    let accept := false in
    let accept := if truthy_list party_ids && py_in (party_id h) party_ids
                  then true else accept in
    let accept := if truthy_list group_ids && py_in (group_id h) group_ids
                  then true else accept in
    let accept := if truthy_list resource_ids && py_in (resource_id h) resource_ids
                  then true else accept in
    let accept := if truthy_list ven_ids && py_in (ven_id h) ven_ids
                  then true else accept in
    accept
  else accept.

(** [self.market_contexts and (e_market_context not in self.market_contexts)]. *)
Definition market_context_rejected (h : EventHandler) (mc : text) : bool :=
  match market_contexts h with
  | Some mcs => truthy_list mcs && negb (py_in mc (map Some mcs))
  | None => false
  end.

(** The [(opt, status)] pair computed by lines 186-211 of [handle_payload]
    for a response-eligible event; [old_mod_num] is [None] when there is no
    stored event. *)
Definition opt_status (h : EventHandler) (evt : EiEvent) (e_mod_num : Z)
    (old_mod_num : option Z) : string * string :=
  let '(opt, status) := ("optIn"%string, "200"%string) in
  let '(opt, status) :=
    match old_mod_num with
    | Some old => if e_mod_num <? old then ("optOut"%string, "403"%string)
                  else (opt, status)
    | None => (opt, status)
    end in
  let '(opt, status) :=
    if negb (check_target_info h evt) then ("optOut"%string, "403"%string)
    else (opt, status) in
  let valid_signals := get_signals evt in
  let '(opt, status) :=
    match valid_signals with
    | None => ("optOut"%string, "403"%string)
    | Some _ => (opt, status)
    end in
  let '(opt, status) :=
    if market_context_rejected h (get_market_context evt)
    then ("optOut"%string, "405"%string) else (opt, status) in
  (opt, status).

(** Response eligibility (line 183): [old_mod_num] is [None] exactly when
    [old_event is None]. *)
Definition response_eligible (response_required : text) (e_mod_num : Z)
    (old_mod_num : option Z) : bool :=
  (match old_mod_num with None => true | Some old => old <? e_mod_num end
   || bool_decide (response_required = Some "always"%string))
  && negb (bool_decide (response_required = Some "never"%string)).

(** Acceptance (line 216). *)
Definition is_new_or_updated (e_mod_num : Z) (old_mod_num : option Z) : bool :=
  match old_mod_num with None => true | Some old => old <? e_mod_num end.

(** ** The event store and the state of a pass *)

(** Modelled from the spec: the [database] module is not in the source tree.
    The Event Store (spec 4.3) is a map from event id to the row
    [(vtnId, eventId, modificationNumber, rawPayload)]; [get_event] parses
    the raw payload back, which the embedding represents by the record
    itself. *)
Record Row := mkRow {
  row_vtn : text;
  row_mod : Z;
  row_xml : EiEvent
}.

(** The calls of [event_callback]; each one records the arguments it was
    given and the store it could observe at that moment. *)
Inductive Effect :=
| ECallback (updated : gmap text EiEvent) (removed : gmap text (option EiEvent))
            (observed_db : gmap text Row).

Record World := mkWorld {
  w_db : gmap text Row;
  w_log : list Effect
}.

(** State and exception monad: [None] is a Python exception escaping
    [handle_payload]; the world reached when it is raised is kept. *)
Definition M (A : Type) : Type := World -> World * option A.

Definition ret {A} (a : A) : M A := fun w => (w, Some a).
Definition bind {A B} (m : M A) (k : A -> M B) : M B :=
  fun w => match m w with
           | (w', Some a) => k a w'
           | (w', None) => (w', None)
           end.
Definition raise {A} : M A := fun w => (w, None).

(** An optional value that the Python code uses unconditionally: [None]
    raises. *)
Definition get_or_raise {A} (o : option A) : M A :=
  match o with Some a => ret a | None => raise end.

Notation "x <- c1 ;; c2" := (bind c1 (fun x => c2))
  (at level 100, c1 at next level, right associativity).
Notation "c1 ;;; c2" := (bind c1 (fun _ => c2))
  (at level 100, right associativity).

Fixpoint foldM {A B} (f : A -> B -> M A) (a : A) (l : list B) : M A :=
  match l with
  | [] => ret a
  | x :: l' => a' <- f a x ;; foldM f a' l'
  end.

(** [get_mod_number]: [int(...)] raises when [ev_mod] is [None]. *)
Definition get_mod_number (evt : EiEvent) : M Z := get_or_raise (ev_mod evt).

(** Modelled from the spec: [db.get_event(id) -> rawRecord | absent]. *)
Definition get_event (e_id : text) : M (option EiEvent) :=
  fun w => (w, Some (row_xml <$> w_db w !! e_id)).

(** Modelled from the spec: [db.update_event(id, mod, raw, vtnId)], an upsert. *)
Definition db_update_event (e_id : text) (mod_num : Z) (raw : EiEvent)
    (vtn : text) : M unit :=
  fun w => (mkWorld (<[e_id := mkRow vtn mod_num raw]> (w_db w)) (w_log w),
            Some tt).

(** [EventHandler.update_event]. *)
Definition update_event (e_id : text) (event : EiEvent) (vtn_id : text) : M unit :=
  m <- get_mod_number event ;; db_update_event e_id m event vtn_id.

(** Modelled from the spec: [db.get_active_events()], the full snapshot of
    the store, as the iterator of parsed events of
    [EventHandler.get_active_events]. *)
Definition get_active_events : M (list EiEvent) :=
  fun w => (w, Some (map (fun kv => row_xml kv.2) (map_to_list (w_db w)))).

(** Modelled from the spec: [db.remove_events(ids)]. *)
Definition remove_events (ids : list text) : M unit :=
  fun w => (mkWorld (foldl (fun d k => delete k d) (w_db w) ids) (w_log w),
            Some tt).

(** [self.event_callback(updated_events, remove_events)]; an exception of
    the callback is caught and logged, so it never changes the pass. *)
Definition call_event_callback (h : EventHandler) (updated : gmap text EiEvent)
    (removed : gmap text (option EiEvent)) : M unit :=
  fun w => if has_callback h
           then (mkWorld (w_db w) (w_log w ++ [ECallback updated removed (w_db w)]),
                 Some tt)
           else (w, Some tt).

(** ** The reply builders *)

(** lxml's [ElementMaker] accepts a string as the text of an element and
    raises [TypeError] for a [None] child; [lxml_text_ok t] says whether
    [t] can be given as such a child. *)
Definition lxml_text_ok (t : text) : bool :=
  match t with Some _ => true | None => false end.

(** The [None]-able children of [build_created_payload]: [requestID] and
    [e_id] of each tuple (lines 311 and 313) and [self.ven_id] (line 323);
    [str(status)], [str(mod_num)] and [opt] are always strings. *)
Definition created_payload_ok (h : EventHandler) (events : list Decision) : bool :=
  forallb (fun d => lxml_text_ok (d_request_id d) && lxml_text_ok (d_id d)) events
  && lxml_text_ok (ven_id h).

(** [EventHandler.build_created_payload]. *)
Definition build_created_payload (h : EventHandler) (events : list Decision) : M Reply :=
  if created_payload_ok h events then ret (CreatedPayload events) else raise.

(** [EventHandler.build_error_response]: [ei.venID(self.ven_id)] (line 350)
    is its only [None]-able child. *)
Definition build_error_response (h : EventHandler) (request_id : text)
    (code description : string) : M Reply :=
  if lxml_text_ok (ven_id h) then ret (ErrorResponse request_id code description)
  else raise.

(** ** [EventHandler.handle_payload] *)

(** The local variables of the loop over the [oadr:oadrEvent]s. *)
Record LoopState := mkLoop {
  reply_events : list Decision;
  all_events : list text;
  updated_events : gmap text EiEvent
}.

Section Reconcile.

(** Modelled from the spec: [schedule.random_offset] together with
    [str_to_datetime] / [dttm_to_str] (the [schedule] module is not in the
    source tree).  Given the [xcal:date-time] text and the startbefore /
    startafter texts it returns the new start text, or [None] when it
    raises. *)
Variable random_offset : text -> text -> text -> option string.

(** One iteration of the loop of lines 163-234. *)
Definition process_event (h : EventHandler) (requestID vtnID : text)
    (st : LoopState) (oe : OadrEvent) : M LoopState :=
  let response_required := oe_response_required oe in
  evt <- get_or_raise (oe_ei_event oe) ;;
  let e_id := get_event_id evt in
  e_mod_num <- get_mod_number evt ;;
  let e_market_context := get_market_context evt in
  let all_events := all_events st ++ [e_id] in
  old_event <- get_event e_id ;;
  old_mod_num <- (match old_event with
                  | None => ret None
                  | Some old => m <- get_mod_number old ;; ret (Some m)
                  end) ;;
  let reply_events :=
    if response_eligible response_required e_mod_num old_mod_num then
      let '(opt, status) := opt_status h evt e_mod_num old_mod_num in
      reply_events st ++ [mkDecision e_id e_mod_num requestID opt status]
    else reply_events st in
  if is_new_or_updated e_mod_num old_mod_num then
    let start_offset := get_start_before_after evt in
    evt <- (if truthy_text start_offset.1 || truthy_text start_offset.2 then
              new_start <- get_or_raise
                             (random_offset (ev_dtstart evt)
                                            start_offset.1 start_offset.2) ;;
              match ev_dtstart evt with
              | Some _ => ret (set_active_period_start evt new_start)
              | None => raise
              end
            else ret evt) ;;
    let updated := <[e_id := evt]> (updated_events st) in
    update_event e_id evt vtnID ;;;
    ret (mkLoop reply_events all_events updated)
  else ret (mkLoop reply_events all_events (updated_events st)).

(** The loop of lines 238-243 collecting implicitly cancelled events. *)
Definition collect_removed (seen : list text) (active : list EiEvent)
    : M (gmap text (option EiEvent)) :=
  foldM (fun rm evt =>
           let e_id := get_event_id evt in
           if py_in e_id seen then ret rm
           else o <- get_event e_id ;; ret (<[e_id := o]> rm))
        ∅ active.

(** [self.vtn_ids and (vtnID not in self.vtn_ids)]. *)
Definition vtn_rejected (h : EventHandler) (vtnID : text) : bool :=
  match vtn_ids h with
  | Some ids => truthy_list ids && negb (py_in vtnID (map Some ids))
  | None => false
  end.

Definition handle_payload (h : EventHandler) (payload : Payload) : M Reply :=
  let requestID := pl_request_id payload in
  let vtnID := pl_vtn_id payload in
  if vtn_rejected h vtnID then
    build_error_response h requestID "400"%string
      ("Unknown vtnID: " ++ py_str vtnID)%string
  else
    st <- foldM (process_event h requestID vtnID) (mkLoop [] [] ∅)
                (pl_events payload) ;;
    active <- get_active_events ;;
    removed <- collect_removed (all_events st) active ;;
    call_event_callback h (updated_events st) removed ;;;
    remove_events (map fst (map_to_list removed)) ;;;
    if truthy_list (reply_events st)
    then build_created_payload h (reply_events st) else ret NoReply.

End Reconcile.


(** ** Auxiliary definitions for the statements *)

(** The ids of the [ei:eiEvent]s of a batch, in order. *)
Definition batch_ids (l : list OadrEvent) : list text :=
  omap (fun oe => get_event_id <$> oe_ei_event oe) l.

(** The map built by [collect_removed], as a pure function of the store. *)
Definition removed_map (seen : list text) (active : list EiEvent)
    (db : gmap text Row) : gmap text (option EiEvent) :=
  foldl (fun rm evt =>
           if py_in (get_event_id evt) seen then rm
           else <[get_event_id evt := row_xml <$> db !! get_event_id evt]> rm)
        ∅ active.

(** A "simple" signal definition of an admissible type (spec 4.1, step 6). *)
Definition is_simple_signal (sg : EiEventSignal) : Prop :=
  sig_name sg = Some "simple"%string /\
  exists t, sig_type sg = Some t /\ t ∈ VALID_SIGNAL_TYPES.

(** The store holds every record under its own event id, as
    [update_event] writes it. *)
Definition store_keyed_by_id (db : gmap text Row) : Prop :=
  forall k r, db !! k = Some r -> get_event_id (row_xml r) = k.

(** [','.join(parts)]. *)
Fixpoint join_comma (parts : list string) : string :=
  match parts with
  | [] => ""%string
  | [x] => x
  | x :: rest => (x ++ String ","%char (join_comma rest))%string
  end.

(** The number of commas in a string. *)
Definition count_commas (s : string) : nat :=
  length (filter (fun c => c = ","%char) (list_ascii_of_string s)).

(** ** Concrete inputs *)

Definition simple_price : EiEventSignal :=
  mkSignal (Some "simple"%string) (Some "price"%string)
    [mkInterval (Some "PT1H"%string) (Some "0"%string) (Some "1.0"%string)].

(** A qualifying simple signal with no interval. *)
Definition simple_price_empty : EiEventSignal :=
  mkSignal (Some "simple"%string) (Some "price"%string) [].

(** An untargeted event without start tolerance. *)
Definition sample_event (id : string) (m : option Z) (mc : string)
    (sigs : list EiEventSignal) : EiEvent :=
  mkEiEvent (Some id) m (Some "far"%string) (Some mc)
    (Some "2026-10-16T00:00:00Z"%string) None None [] [] [] [] sigs.

Definition sample_handler (vtns mcs : option string) : EventHandler :=
  EventHandler_init (Some "ven1"%string) vtns mcs None None None
    OADR_PROFILE_20A true.

Definition always (evt : EiEvent) : OadrEvent :=
  mkOadrEvent (Some "always"%string) (Some evt).

Definition sample_payload (vtn : string) (evs : list OadrEvent) : Payload :=
  mkPayload (Some "req1"%string) (Some vtn) evs.

(** A store holding the given events, received from "vtn1". *)
Definition store_of (evs : list EiEvent) : World :=
  mkWorld (list_to_map (map (fun e => (ev_id e, mkRow (Some "vtn1"%string)
                                        (default 0 (ev_mod e)) e)) evs)) [].

(** An event that asks for no response. *)
Definition never_event (evt : EiEvent) : OadrEvent :=
  mkOadrEvent (Some "never"%string) (Some evt).

(** An untargeted event with a start tolerance of ten minutes either way. *)
Definition tolerant_event (id : string) (m : Z) : EiEvent :=
  mkEiEvent (Some id) (Some m) (Some "far"%string) (Some "mc"%string)
    (Some "2026-10-16T00:00:00Z"%string) (Some "PT10M"%string) (Some "PT10M"%string)
    [] [] [] [] [simple_price].

(** A scheduler that always moves the start to 00:05. *)
Definition fixed_offset : text -> text -> text -> option string :=
  fun _ _ _ => Some "2026-10-16T00:05:00Z"%string.

(** The scheduler is never called on events without tolerance. *)
Definition no_reschedule : text -> text -> text -> option string :=
  fun _ _ _ => None.

(** ** General facts about the monad and the loop *)

Lemma foldM_app {A B} (f : A -> B -> M A) (a : A) (l1 l2 : list B) (w : World) :
  foldM f a (l1 ++ l2) w =
  match foldM f a l1 w with
  | (w', Some a') => foldM f a' l2 w'
  | (w', None) => (w', None)
  end.
Proof.
  revert a w. induction l1 as [|x l1 IH]; intros a w; simpl.
  - reflexivity.
  - unfold bind. destruct (f a x w) as [w1 [a1|]]; [apply IH|reflexivity].
Qed.

Lemma py_in_true {A} `{EqDecision A} (x : A) (l : list A) :
  py_in x l = true <-> x ∈ l.
Proof.
  unfold py_in. rewrite existsb_exists. split.
  - intros (y & Hy & Heq). apply bool_decide_eq_true in Heq. subst.
    by apply list_elem_of_In.
  - intros Hx. exists x. split; [by apply list_elem_of_In|].
    by apply bool_decide_eq_true.
Qed.

Ltac raised_case := simpl in *; simplify_eq; simpl; split; reflexivity.

Ltac run_monad :=
  unfold get_mod_number, get_event, update_event, db_update_event,
    get_or_raise, get_event_id in *;
  unfold bind, ret, raise in *.

(** One iteration either raises without touching the world, or leaves the
    world unchanged because the stored version is not older, or writes the
    (possibly rescheduled) incoming record under its id. *)
Lemma process_event_cases ro h rq vtn st oe w w' r :
  process_event ro h rq vtn st oe w = (w', r) ->
  w_log w' = w_log w /\
  match r with
  | None => w' = w
  | Some st' =>
      exists evt m, oe_ei_event oe = Some evt /\ ev_mod evt = Some m /\
      all_events st' = all_events st ++ [ev_id evt] /\
      ((w' = w /\ updated_events st' = updated_events st /\
        exists r0 om, w_db w !! ev_id evt = Some r0 /\
                      ev_mod (row_xml r0) = Some om /\ m <= om)
       \/ (exists e', ev_id e' = ev_id evt /\ ev_mod e' = Some m /\
           w_db w' = <[ev_id evt := mkRow vtn m e']> (w_db w) /\
           updated_events st' = <[ev_id evt := e']> (updated_events st) /\
           (w_db w !! ev_id evt = None \/
            exists r0 om, w_db w !! ev_id evt = Some r0 /\
                          ev_mod (row_xml r0) = Some om /\ om < m)))
  end.
Proof.
  unfold process_event. run_monad. intros H.
  destruct (oe_ei_event oe) as [evt|]; simpl in H; [|raised_case].
  destruct (ev_mod evt) as [m|] eqn:Hm; simpl in H; [|raised_case].
  destruct (w_db w !! ev_id evt) as [r0|] eqn:Hr0; simpl in H.
  - destruct (ev_mod (row_xml r0)) as [om|] eqn:Hom; [|raised_case].
    unfold is_new_or_updated in H.
    destruct (om <? m) eqn:Hlt.
    + destruct (truthy_text _ || truthy_text _).
      * destruct (ro _ _ _) as [ns|]; [|raised_case].
        destruct (ev_dtstart evt) eqn:Hd; [|raised_case].
        simpl in H. unfold get_mod_number, get_or_raise, ret in H. simpl in H.
        try rewrite Hm in H. simplify_eq. split; [done|].
        exists evt, m. do 3 (split; [done|]). right.
        exists (set_active_period_start evt ns). do 4 (split; [done|]).
        right. exists r0, om. split; [done|]. split; [done|]. lia.
      * unfold get_mod_number, get_or_raise, ret in H. rewrite Hm in H.
        simpl in H. simplify_eq. split; [done|].
        exists evt, m. do 3 (split; [done|]). right.
        exists evt. do 4 (split; [done|]).
        right. exists r0, om. split; [done|]. split; [done|]. lia.
    + simplify_eq. split; [done|].
      exists evt, m. do 3 (split; [done|]). left.
      split; [done|]. split; [done|].
      exists r0, om. split; [done|]. split; [done|]. lia.
  - unfold is_new_or_updated in H.
    destruct (truthy_text _ || truthy_text _).
    + destruct (ro _ _ _) as [ns|]; [|raised_case].
      destruct (ev_dtstart evt) eqn:Hd; [|raised_case].
      simpl in H. unfold get_mod_number, get_or_raise, ret in H. simpl in H.
      try rewrite Hm in H. simplify_eq. split; [done|].
      exists evt, m. do 3 (split; [done|]). right.
      exists (set_active_period_start evt ns). do 4 (split; [done|]).
      by left.
    + unfold get_mod_number, get_or_raise, ret in H. rewrite Hm in H.
      simpl in H. simplify_eq. split; [done|].
      exists evt, m. do 3 (split; [done|]). right.
      exists evt. do 4 (split; [done|]). by left.
Qed.

(** A property of the loop state and world kept by every completed
    iteration holds when the loop ends, also when it ends by an exception
    (an iteration that raises leaves the world as it was). *)
Lemma loop_invariant (P : LoopState -> World -> Prop) ro h rq vtn
    (l : list OadrEvent) st w w' r :
  (forall st0 w0 oe st1 w1, oe ∈ l -> P st0 w0 ->
     process_event ro h rq vtn st0 oe w0 = (w1, Some st1) -> P st1 w1) ->
  P st w ->
  foldM (process_event ro h rq vtn) st l w = (w', r) ->
  exists stf, P stf w' /\ (forall st', r = Some st' -> st' = stf).
Proof.
  revert st w. induction l as [|oe l IH]; intros st w Hstep HP Hrun; simpl in Hrun.
  - unfold ret in Hrun. simplify_eq. exists st. split; [done|]. intros ? [=]; done.
  - unfold bind in Hrun.
    destruct (process_event ro h rq vtn st oe w) as [w1 [st1|]] eqn:Hpe.
    + eapply IH; [|eapply Hstep; [by left|done|done]|done].
      intros. eapply Hstep; [by right|done|done].
    + simplify_eq.
      apply process_event_cases in Hpe as [_ ->].
      exists st. split; [done|]. intros ? [=].
Qed.


Lemma loop_all_events ro h rq vtn l st w w' st' :
  foldM (process_event ro h rq vtn) st l w = (w', Some st') ->
  all_events st' = all_events st ++ batch_ids l.
Proof.
  revert st w. induction l as [|oe l IH]; intros st w Hrun; simpl in Hrun.
  - unfold ret in Hrun. simplify_eq. by rewrite app_nil_r.
  - unfold bind in Hrun.
    destruct (process_event ro h rq vtn st oe w) as [w1 [st1|]] eqn:Hpe;
      [|by simplify_eq].
    apply process_event_cases in Hpe as [_ (evt & m & Hevt & _ & Hall & _)].
    rewrite (IH _ _ Hrun), Hall. simpl. rewrite Hevt. simpl.
    by rewrite <- app_assoc.
Qed.

Lemma loop_log ro h rq vtn l st w w' r :
  foldM (process_event ro h rq vtn) st l w = (w', r) -> w_log w' = w_log w.
Proof.
  intros Hrun.
  destruct (loop_invariant (fun _ w1 => w_log w1 = w_log w) ro h rq vtn l st w w' r)
    as (stf & Hl & _); [|done|done|done].
  intros st0 w0 oe st1 w1 _ H0 Hpe.
  apply process_event_cases in Hpe as [-> _]. done.
Qed.

(** Every id processed so far is in the store. *)
Lemma loop_seen_stored ro h rq vtn l w w' st' :
  foldM (process_event ro h rq vtn) (mkLoop [] [] ∅) l w = (w', Some st') ->
  forall k, k ∈ all_events st' -> is_Some (w_db w' !! k).
Proof.
  intros Hrun.
  destruct (loop_invariant
              (fun st1 w1 => forall k, k ∈ all_events st1 -> is_Some (w_db w1 !! k))
              ro h rq vtn l (mkLoop [] [] ∅) w w' (Some st')) as (stf & Hinv & Heq); [|simpl; set_solver|done|].
  - intros st0 w0 oe st1 w1 _ H0 Hpe.
    apply process_event_cases in Hpe as
        [_ (evt & m & _ & _ & Hall & [(-> & _ & r0 & om & Hr0 & _)
                                     | (e' & _ & _ & Hdb & _)])];
      intros k Hk; rewrite Hall in Hk; apply elem_of_app in Hk as [Hk|Hk].
    + by apply H0.
    + apply list_elem_of_singleton in Hk. subst. by rewrite Hr0.
    + rewrite Hdb. destruct (decide (ev_id evt = k)) as [<-|Hne].
      * by rewrite lookup_insert_eq.
      * rewrite lookup_insert_ne; [by apply H0|done].
    + apply list_elem_of_singleton in Hk. subst. rewrite Hdb.
      by rewrite lookup_insert_eq.
  - by rewrite (Heq st' eq_refl).
Qed.

(** The records in [updated_events] are the ones in the store. *)
Lemma loop_updated_stored ro h rq vtn l w w' st' :
  foldM (process_event ro h rq vtn) (mkLoop [] [] ∅) l w = (w', Some st') ->
  forall k e, updated_events st' !! k = Some e -> row_xml <$> w_db w' !! k = Some e.
Proof.
  intros Hrun.
  destruct (loop_invariant
              (fun st1 w1 => forall k e, updated_events st1 !! k = Some e ->
                                         row_xml <$> w_db w1 !! k = Some e)
              ro h rq vtn l (mkLoop [] [] ∅) w w' (Some st')) as (stf & Hinv & Heq);
    [|simpl; intros ??; by rewrite lookup_empty|done|].
  - intros st0 w0 oe st1 w1 _ H0 Hpe.
    apply process_event_cases in Hpe as
        [_ (evt & m & _ & _ & _ & [(-> & -> & _) | (e' & _ & _ & Hdb & Hupd & _)])];
      [done|].
    intros k e Hk. rewrite Hdb. rewrite Hupd in Hk.
    destruct (decide (ev_id evt = k)) as [<-|Hne].
    + rewrite lookup_insert_eq in Hk. rewrite lookup_insert_eq. by simplify_eq.
    + rewrite lookup_insert_ne in Hk by done. rewrite lookup_insert_ne by done.
      by apply H0.
  - by rewrite (Heq st' eq_refl).
Qed.


Lemma collect_removed_run seen active w :
  collect_removed seen active w = (w, Some (removed_map seen active (w_db w))).
Proof.
  unfold collect_removed, removed_map.
  generalize (∅ : gmap text (option EiEvent)) as rm0.
  induction active as [|evt active IH]; intros rm0; simpl; [done|].
  unfold bind, ret, get_event. destruct (py_in _ _); apply IH.
Qed.

Lemma removed_map_dom seen active db k :
  is_Some (removed_map seen active db !! k) <->
  exists evt, evt ∈ active /\ get_event_id evt = k /\ k ∉ seen.
Proof.
  unfold removed_map.
  cut (forall rm0 : gmap text (option EiEvent),
         is_Some (foldl (fun rm evt =>
           if py_in (get_event_id evt) seen then rm
           else <[get_event_id evt := row_xml <$> db !! get_event_id evt]> rm)
           rm0 active !! k) <->
         is_Some (rm0 !! k) \/
         exists evt, evt ∈ active /\ get_event_id evt = k /\ k ∉ seen).
  { intros Hc. rewrite Hc, lookup_empty. split.
    - intros [[? [=]]|?]; done.
    - by right. }
  induction active as [|evt active IH]; intros rm0; simpl.
  - split; [by left|]. intros [?|(? & Hin & _)]; [done|set_solver].
  - destruct (py_in (get_event_id evt) seen) eqn:Hseen; rewrite IH.
    + split.
      * intros [?|(e & ? & ? & ?)]; [by left|right; exists e; set_solver].
      * intros [?|(e & Hin & <- & Hns)]; [by left|].
        apply elem_of_cons in Hin as [->|Hin].
        -- apply py_in_true in Hseen. done.
        -- right. by exists e.
    + destruct (decide (get_event_id evt = k)) as [<-|Hne].
      * rewrite lookup_insert_eq. split; [|by left].
        intros _. right. exists evt. split; [set_solver|]. split; [done|].
        intros Hk. apply py_in_true in Hk. congruence.
      * rewrite lookup_insert_ne by done. split.
        -- intros [?|(e & ? & ? & ?)]; [by left|right; exists e; set_solver].
        -- intros [?|(e & Hin & <- & Hns)]; [by left|].
           apply elem_of_cons in Hin as [->|Hin]; [done|].
           right. by exists e.
Qed.

Lemma remove_events_lookup (ids : list text) (db : gmap text Row) k :
  foldl (fun d k => delete k d) db ids !! k =
  if decide (k ∈ ids) then None else db !! k.
Proof.
  revert db. induction ids as [|k' ids IH]; intros db; simpl.
  - destruct (decide (k ∈ [])); [set_solver|done].
  - rewrite IH.
    destruct (decide (k ∈ ids)) as [H1|H1];
      destruct (decide (k ∈ k' :: ids)) as [H2|H2].
    + done.
    + exfalso. apply H2. by right.
    + apply elem_of_cons in H2 as [->|H2]; [|done].
      by rewrite lookup_delete_eq.
    + destruct (decide (k' = k)) as [<-|Hne].
      * exfalso. apply H2. by left.
      * by rewrite lookup_delete_ne.
Qed.

Lemma removed_keys_elem (rm : gmap text (option EiEvent)) k :
  k ∈ map fst (map_to_list rm) <-> is_Some (rm !! k).
Proof.
  rewrite list_elem_of_In, in_map_iff. split.
  - intros ([k' v] & <- & Hin). apply list_elem_of_In, elem_of_map_to_list in Hin.
    by exists v.
  - intros [v Hv]. exists (k, v). split; [done|].
    by apply list_elem_of_In, elem_of_map_to_list.
Qed.

Lemma active_events_elem (db : gmap text Row) evt :
  evt ∈ map (fun kv => row_xml kv.2) (map_to_list db) <->
  exists k r, db !! k = Some r /\ row_xml r = evt.
Proof.
  rewrite list_elem_of_In, in_map_iff. split.
  - intros ([k r] & <- & Hin). apply list_elem_of_In, elem_of_map_to_list in Hin.
    by exists k, r.
  - intros (k & r & Hr & <-). exists (k, r). split; [done|].
    by apply list_elem_of_In, elem_of_map_to_list.
Qed.

(** A pass whose VTN is accepted: the loop, then the removal of the
    implicitly cancelled events after the callback. *)
Lemma handle_payload_accepted ro h p w :
  vtn_rejected h (pl_vtn_id p) = false ->
  handle_payload ro h p w =
  match foldM (process_event ro h (pl_request_id p) (pl_vtn_id p))
              (mkLoop [] [] ∅) (pl_events p) w with
  | (w1, Some st) =>
      let rm := removed_map (all_events st)
                  (map (fun kv => row_xml kv.2) (map_to_list (w_db w1))) (w_db w1) in
      let log := if has_callback h
                 then w_log w1 ++ [ECallback (updated_events st) rm (w_db w1)]
                 else w_log w1 in
      (mkWorld (foldl (fun d k => delete k d) (w_db w1) (map fst (map_to_list rm))) log,
       if truthy_list (reply_events st)
       then (if created_payload_ok h (reply_events st)
             then Some (CreatedPayload (reply_events st)) else None)
       else Some NoReply)
  | (w1, None) => (w1, None)
  end.
Proof.
  intros Hv. unfold handle_payload. rewrite Hv.
  unfold bind at 1.
  destruct (foldM _ _ _ w) as [w1 [st|]]; [|done].
  unfold bind, get_active_events. rewrite collect_removed_run.
  unfold call_event_callback, remove_events, build_created_payload, ret, raise.
  destruct (has_callback h); simpl;
    destruct (truthy_list (reply_events st)); try destruct (created_payload_ok _ _);
    try done; by destruct w1.
Qed.

Lemma py_in_nil {A} `{EqDecision A} (x : A) : py_in x [] = false.
Proof. reflexivity. Qed.

Lemma check_target_info_bool h evt :
  check_target_info h evt =
  negb (truthy_list (get_party_ids evt) || truthy_list (get_group_ids evt)
        || truthy_list (get_resource_ids evt) || truthy_list (get_ven_ids evt))
  || py_in (party_id h) (get_party_ids evt) || py_in (group_id h) (get_group_ids evt)
  || py_in (resource_id h) (get_resource_ids evt) || py_in (ven_id h) (get_ven_ids evt).
Proof.
  unfold check_target_info.
  destruct (get_party_ids evt) as [|? ?], (get_group_ids evt) as [|? ?],
    (get_resource_ids evt) as [|? ?], (get_ven_ids evt) as [|? ?];
  cbn [truthy_list negb orb andb]; rewrite ?py_in_nil; cbn [negb orb andb];
  repeat match goal with |- context [py_in ?x (?a :: ?l)] =>
           destruct (py_in x (a :: l)) end; reflexivity.
Qed.


Lemma simple_signal_test sg :
  bool_decide (sig_name sg = Some "simple"%string) && valid_signal_type (sig_type sg)
  = true <-> is_simple_signal sg.
Proof.
  unfold is_simple_signal, valid_signal_type.
  rewrite andb_true_iff, bool_decide_eq_true.
  destruct (sig_type sg) as [t|]; rewrite ?py_in_true; split.
  - intros [? ?]. split; [done|]. by exists t.
  - intros [? (t' & [=<-] & ?)]. done.
  - intros [? [=]].
  - intros [? (t' & [=] & ?)].
Qed.

Lemma select_simple_signal_spec sigs :
  (select_simple_signal sigs = None <->
     forall sg, sg ∈ sigs -> ~ is_simple_signal sg) /\
  (forall sg, select_simple_signal sigs = Some sg ->
     exists pre post, sigs = pre ++ sg :: post /\ is_simple_signal sg /\
       forall s, s ∈ post -> ~ is_simple_signal s).
Proof.
  unfold select_simple_signal.
  induction sigs as [|x sigs IH] using rev_ind.
  - simpl. split; [split; [intros _ sg Hin; set_solver|done]|done].
  - rewrite foldl_app. simpl. destruct IH as [IHn IHs].
    destruct (bool_decide _ && _) eqn:Hq.
    + apply simple_signal_test in Hq. split.
      * split; [done|]. intros Hall. exfalso. apply (Hall x); [set_solver|done].
      * intros sg [=<-]. exists sigs, []. split; [done|]. split; [done|]. set_solver.
    + assert (~ is_simple_signal x) as Hx.
      { intros Hs. apply simple_signal_test in Hs. congruence. }
      split.
      * rewrite IHn. split.
        -- intros Hall sg Hin. apply elem_of_app in Hin as [Hin|Hin]; [by apply Hall|].
           apply list_elem_of_singleton in Hin. by subst.
        -- intros Hall sg Hin. apply Hall. set_solver.
      * intros sg Hsel. destruct (IHs sg Hsel) as (pre & post & -> & Hs & Hpost).
        exists pre, (post ++ [x]). split; [by rewrite <- app_assoc|].
        split; [done|]. intros s Hin. apply elem_of_app in Hin as [Hin|Hin];
          [by apply Hpost|]. apply list_elem_of_singleton in Hin. by subst.
Qed.

(** The decision appended by one completed iteration. *)
Lemma process_event_reply ro h rq vtn st oe w w' st' :
  process_event ro h rq vtn st oe w = (w', Some st') ->
  exists evt m old,
    oe_ei_event oe = Some evt /\ ev_mod evt = Some m /\
    ((w_db w !! ev_id evt = None /\ old = None) \/
     (exists r0 om, w_db w !! ev_id evt = Some r0 /\
                    ev_mod (row_xml r0) = Some om /\ old = Some om)) /\
    reply_events st' = reply_events st ++
      (if response_eligible (oe_response_required oe) m old
       then [mkDecision (ev_id evt) m rq (opt_status h evt m old).1
                        (opt_status h evt m old).2]
       else []).
Proof.
  unfold process_event. run_monad. intros H.
  destruct (oe_ei_event oe) as [evt|]; simpl in H; [|done].
  destruct (ev_mod evt) as [m|] eqn:Hm; simpl in H; [|done].
  assert (Hrep : forall old,
    (if response_eligible (oe_response_required oe) m old then
       let '(opt, status) := opt_status h evt m old in
       reply_events st ++ [mkDecision (ev_id evt) m rq opt status]
     else reply_events st) =
    reply_events st ++
      (if response_eligible (oe_response_required oe) m old
       then [mkDecision (ev_id evt) m rq (opt_status h evt m old).1
                        (opt_status h evt m old).2]
       else [])).
  { intros old. destruct (response_eligible _ _ _); [|by rewrite app_nil_r].
    by destruct (opt_status h evt m old). }
  destruct (w_db w !! ev_id evt) as [r0|] eqn:Hr0; simpl in H.
  - destruct (ev_mod (row_xml r0)) as [om|] eqn:Hom; simpl in H; [|done].
    exists evt, m, (Some om). split; [done|]. split; [done|].
    split; [right; by exists r0, om|]. rewrite <- Hrep.
    unfold is_new_or_updated in H. destruct (om <? m).
    + destruct (truthy_text _ || truthy_text _).
      * destruct (ro _ _ _) as [ns|]; simpl in H; [|done].
        destruct (ev_dtstart evt); simpl in H; [|done].
        unfold get_mod_number, get_or_raise, ret in H. simpl in H.
        try rewrite Hm in H. simpl in H. by simplify_eq.
      * unfold get_mod_number, get_or_raise, ret in H. rewrite Hm in H.
        simpl in H. by simplify_eq.
    + by simplify_eq.
  - exists evt, m, None. split; [done|]. split; [done|].
    split; [by left|]. rewrite <- Hrep.
    unfold is_new_or_updated in H.
    destruct (truthy_text _ || truthy_text _).
    + destruct (ro _ _ _) as [ns|]; simpl in H; [|done].
      destruct (ev_dtstart evt); simpl in H; [|done].
      unfold get_mod_number, get_or_raise, ret in H. simpl in H.
      try rewrite Hm in H. simpl in H. by simplify_eq.
    + unfold get_mod_number, get_or_raise, ret in H. rewrite Hm in H.
      simpl in H. by simplify_eq.
Qed.

(** ** Claim theorems *)

Lemma opt_status_eq h evt m old :
  opt_status h evt m old =
  (if market_context_rejected h (get_market_context evt) then ("optOut"%string, "405"%string)
   else if match old with Some om => m <? om | None => false end
           || negb (check_target_info h evt)
           || match get_signals evt with None => true | Some _ => false end
        then ("optOut"%string, "403"%string)
        else ("optIn"%string, "200"%string)).
Proof.
  unfold opt_status.
  destruct (market_context_rejected _ _), old as [om|]; try destruct (m <? om);
    destruct (check_target_info h evt), (get_signals evt); reflexivity.
Qed.

(** C3 counterexample: a stale modification number (1 < 2) together with a
    market context outside [market_contexts] is answered with 405, the code
    of the market-context check, not with the 403 of the version check. *)
Lemma decision_codes_counterexample :
  (handle_payload no_reschedule (sample_handler None (Some "mkt1"%string))
     (sample_payload "vtn1"
        [always (sample_event "E1" (Some 1) "mkt2" [simple_price])])
     (store_of [sample_event "E1" (Some 2) "mkt1" [simple_price]])).2
  = Some (CreatedPayload
            [mkDecision (Some "E1"%string) 1 (Some "req1"%string)
                        "optOut"%string "405"%string]).
Proof. vm_compute. reflexivity. Qed.

(** C4 counterexample: re-receiving [E1] with the stored modification
    number answers optIn / 200. *)
Lemma duplicate_receipt_counterexample :
  (handle_payload no_reschedule (sample_handler None (Some "mkt1"%string))
     (sample_payload "vtn1"
        [always (sample_event "E1" (Some 1) "mkt1" [simple_price])])
     (store_of [sample_event "E1" (Some 1) "mkt1" [simple_price]])).2
  = Some (CreatedPayload
            [mkDecision (Some "E1"%string) 1 (Some "req1"%string)
                        "optIn"%string "200"%string]).
Proof. vm_compute. reflexivity. Qed.

(** C5 counterexample: on an empty store the callback observes the store
    that already holds the new event [E1]. *)
Lemma callback_timing_counterexample :
  w_db (store_of []) !! Some "E1"%string = None /\
  exists upd rm snap,
    w_log (handle_payload no_reschedule (sample_handler None None)
             (sample_payload "vtn1"
                [always (sample_event "E1" (Some 1) "mkt1" [simple_price])])
             (store_of [])).1 = [ECallback upd rm snap] /\
    is_Some (snap !! Some "E1"%string).
Proof.
  split; [reflexivity|]. vm_compute. do 3 eexists. split; [reflexivity|].
  eexists. reflexivity.
Qed.

(** C8 counterexample: an event whose simple signal has no interval gets
    an empty signal list, is answered optIn / 200 and is persisted. *)
Lemma empty_signal_counterexample :
  get_signals (sample_event "E1" (Some 1) "mkt1" [simple_price_empty]) = Some [] /\
  let r := handle_payload no_reschedule (sample_handler None (Some "mkt1"%string))
             (sample_payload "vtn1"
                [always (sample_event "E1" (Some 1) "mkt1" [simple_price_empty])])
             (store_of []) in
  r.2 = Some (CreatedPayload
                [mkDecision (Some "E1"%string) 1 (Some "req1"%string)
                            "optIn"%string "200"%string]) /\
  is_Some (w_db r.1 !! Some "E1"%string).
Proof. split; [reflexivity|]. vm_compute. split; [reflexivity|]. eexists. reflexivity. Qed.

(** C9 counterexample: an event whose modification number is not an
    integer, followed by a well-formed event [E2]: the pass raises, [E2] is
    neither answered nor stored. *)
Lemma malformed_record_counterexample :
  handle_payload no_reschedule (sample_handler None None)
    (sample_payload "vtn1"
       [always (sample_event "E1" None "mkt1" [simple_price]);
        always (sample_event "E2" (Some 1) "mkt1" [simple_price])])
    (store_of [])
  = (store_of [], None).
Proof. vm_compute. reflexivity. Qed.

(** C2 counterexample: a pass from a VTN outside [vtn_ids] leaves [E1],
    absent from its (empty) batch, in the store and calls no callback. *)
Lemma implicit_cancellation_counterexample :
  handle_payload no_reschedule (sample_handler (Some "vtn1"%string) None)
    (sample_payload "vtn2" [])
    (store_of [sample_event "E1" (Some 1) "mkt1" [simple_price]])
  = (store_of [sample_event "E1" (Some 1) "mkt1" [simple_price]],
     Some (ErrorResponse (Some "req1"%string) "400"%string "Unknown vtnID: vtn2"%string)).
Proof. vm_compute. reflexivity. Qed.

Lemma truthy_list_false {A} (l : list A) : truthy_list l = false <-> l = [].
Proof. destruct l; simpl; split; done. Qed.

(** C6: [check_target_info] accepts an event iff it has no target at all,
    or the local party, group, resource or VEN id is in the corresponding
    list (a match in any category suffices). *)
Theorem check_target_info_any_category h evt :
  check_target_info h evt = true <->
  (get_party_ids evt = [] /\ get_group_ids evt = [] /\
   get_resource_ids evt = [] /\ get_ven_ids evt = [])
  \/ party_id h ∈ get_party_ids evt \/ group_id h ∈ get_group_ids evt
  \/ resource_id h ∈ get_resource_ids evt \/ ven_id h ∈ get_ven_ids evt.
Proof.
  rewrite check_target_info_bool, !orb_true_iff, negb_true_iff, !orb_false_iff,
    !truthy_list_false, !py_in_true.
  tauto.
Qed.

(** C10: an [oadr_profile_level] other than "2.0a" and "2.0b" is replaced
    by "2.0a" and the 2.0a namespace map is selected. *)
Theorem init_unknown_profile_defaults_to_20a ven vtns mcs g r p s cb
    (H20a : s <> OADR_PROFILE_20A) (H20b : s <> OADR_PROFILE_20B) :
  oadr_profile_level (EventHandler_init ven vtns mcs g r p s cb) = OADR_PROFILE_20A /\
  ns_map (EventHandler_init ven vtns mcs g r p s cb) = NS_A.
Proof.
  unfold EventHandler_init.
  rewrite (bool_decide_eq_false_2 _ H20a), (bool_decide_eq_false_2 _ H20b).
  split; reflexivity.
Qed.

Lemma init_unknown_profile_defaults_to_20a_witness :
  "2.0c"%string <> OADR_PROFILE_20A /\ "2.0c"%string <> OADR_PROFILE_20B /\
  oadr_profile_level (EventHandler_init None None None None None None "2.0c" false)
    = OADR_PROFILE_20A /\
  ns_map (EventHandler_init None None None None None None "2.0c" false) = NS_A.
Proof.
  assert (Ha : "2.0c"%string <> OADR_PROFILE_20A) by (unfold OADR_PROFILE_20A; congruence).
  assert (Hb : "2.0c"%string <> OADR_PROFILE_20B) by (unfold OADR_PROFILE_20B; congruence).
  split; [exact Ha|]. split; [exact Hb|].
  exact (init_unknown_profile_defaults_to_20a None None None None None None
           "2.0c" false Ha Hb).
Defined.

(** C7: the signals are absent exactly when no definition is a "simple"
    signal of an admissible type; otherwise they are the intervals of the
    last such definition in document order; and a decision recorded for an
    event without signals, whose targeting and market context pass, is
    optOut / 403. *)
Theorem simple_signal_selection_and_gating h evt :
  (get_signals evt = None <->
     forall sg, sg ∈ ev_signals evt -> ~ is_simple_signal sg) /\
  (forall l, get_signals evt = Some l ->
     exists pre sg post, ev_signals evt = pre ++ sg :: post /\
       is_simple_signal sg /\ (forall s, s ∈ post -> ~ is_simple_signal s) /\
       l = map (fun i => (iv_duration i, iv_uid i, iv_value i)) (sig_intervals sg)) /\
  (forall ro rq vtn st oe w w' st',
     oe_ei_event oe = Some evt ->
     get_signals evt = None -> check_target_info h evt = true ->
     market_context_rejected h (get_market_context evt) = false ->
     process_event ro h rq vtn st oe w = (w', Some st') ->
     reply_events st' = reply_events st \/
     exists d, reply_events st' = reply_events st ++ [d] /\
               d_opt d = "optOut"%string /\ d_status d = "403"%string).
Proof.
  destruct (select_simple_signal_spec (ev_signals evt)) as [Hnone Hsome].
  split; [|split].
  - unfold get_signals. rewrite <- Hnone.
    destruct (select_simple_signal _); split; done.
  - intros l. unfold get_signals.
    destruct (select_simple_signal _) as [sg|] eqn:Hsel; [|done].
    intros [=<-]. destruct (Hsome sg eq_refl) as (pre & post & Heq & Hs & Hpost).
    by exists pre, sg, post.
  - intros ro rq vtn st oe w w' st' Hoe Hsig Htgt Hmkt Hpe.
    apply process_event_reply in Hpe as (evt' & m & old & Hoe' & _ & _ & Hrep).
    rewrite Hoe in Hoe'. injection Hoe' as <-.
    rewrite Hrep, opt_status_eq, Hmkt, Hsig, !orb_true_r. simpl.
    destruct (response_eligible _ _ _); [right|left; by rewrite app_nil_r].
    eexists. split; [reflexivity|]. split; reflexivity.
Qed.

Lemma simple_signal_selection_and_gating_witness :
  exists w' st',
    process_event no_reschedule (sample_handler None (Some "mkt1"%string))
      (Some "req1"%string) (Some "vtn1"%string) (mkLoop [] [] ∅)
      (always (sample_event "E1" (Some 1) "mkt1"
                 [mkSignal (Some "other"%string) (Some "price"%string) []]))
      (store_of []) = (w', Some st') /\
    (reply_events st' = [] \/
     exists d, reply_events st' = [] ++ [d] /\
               d_opt d = "optOut"%string /\ d_status d = "403"%string).
Proof.
  do 2 eexists. split; [vm_compute; reflexivity|].
  refine (proj2 (proj2 (simple_signal_selection_and_gating
            (sample_handler None (Some "mkt1"%string))
            (sample_event "E1" (Some 1) "mkt1"
               [mkSignal (Some "other"%string) (Some "price"%string) []])))
            no_reschedule (Some "req1"%string) (Some "vtn1"%string)
            (mkLoop [] [] ∅)
            (always (sample_event "E1" (Some 1) "mkt1"
                       [mkSignal (Some "other"%string) (Some "price"%string) []]))
            (store_of []) _ _ _ _ _ _ _);
    [reflexivity|reflexivity|reflexivity|reflexivity|vm_compute; reflexivity].
Defined.

(** C3 (as the code does it): the four checks are all evaluated and each
    failing one overwrites [(opt, status)], so for a response-eligible event
    the recorded decision is optOut / 405 when the market context fails,
    otherwise optOut / 403 when the version, targeting or signal check
    fails, otherwise optIn / 200. *)
Theorem decision_codes_last_failing_check ro h rq vtn st oe w w' st' :
  process_event ro h rq vtn st oe w = (w', Some st') ->
  exists evt m old, oe_ei_event oe = Some evt /\ ev_mod evt = Some m /\
    ((w_db w !! ev_id evt = None /\ old = None) \/
     (exists r0 om, w_db w !! ev_id evt = Some r0 /\
                    ev_mod (row_xml r0) = Some om /\ old = Some om)) /\
    reply_events st' = reply_events st ++
      (if response_eligible (oe_response_required oe) m old then
         [mkDecision (ev_id evt) m rq
            (if market_context_rejected h (get_market_context evt)
                || match old with Some om => m <? om | None => false end
                || negb (check_target_info h evt)
                || match get_signals evt with None => true | Some _ => false end
             then "optOut"%string else "optIn"%string)
            (if market_context_rejected h (get_market_context evt) then "405"%string
             else if match old with Some om => m <? om | None => false end
                     || negb (check_target_info h evt)
                     || match get_signals evt with None => true | Some _ => false end
                  then "403"%string else "200"%string)]
       else []).
Proof.
  intros Hpe.
  apply process_event_reply in Hpe as (evt & m & old & Hoe & Hm & Hold & Hrep).
  exists evt, m, old. do 3 (split; [done|]). rewrite Hrep, opt_status_eq.
  destruct (market_context_rejected _ _), old as [om|]; try destruct (m <? om);
    destruct (check_target_info h evt), (get_signals evt); reflexivity.
Qed.

Lemma decision_codes_last_failing_check_witness :
  exists w' st',
    process_event no_reschedule (sample_handler None (Some "mkt1"%string))
      (Some "req1"%string) (Some "vtn1"%string) (mkLoop [] [] ∅)
      (always (sample_event "E1" (Some 1) "mkt2" [simple_price]))
      (store_of [sample_event "E1" (Some 2) "mkt1" [simple_price]])
      = (w', Some st') /\
    exists evt m old, oe_ei_event (always (sample_event "E1" (Some 1) "mkt2" [simple_price]))
      = Some evt /\ ev_mod evt = Some m /\
    ((w_db (store_of [sample_event "E1" (Some 2) "mkt1" [simple_price]]) !! ev_id evt = None
      /\ old = None) \/
     (exists r0 om, w_db (store_of [sample_event "E1" (Some 2) "mkt1" [simple_price]])
                      !! ev_id evt = Some r0 /\
                    ev_mod (row_xml r0) = Some om /\ old = Some om)) /\
    reply_events st' = [] ++
      (if response_eligible (Some "always"%string) m old then
         [mkDecision (ev_id evt) m (Some "req1"%string)
            (if market_context_rejected (sample_handler None (Some "mkt1"%string))
                  (get_market_context evt)
                || match old with Some om => m <? om | None => false end
                || negb (check_target_info (sample_handler None (Some "mkt1"%string)) evt)
                || match get_signals evt with None => true | Some _ => false end
             then "optOut"%string else "optIn"%string)
            (if market_context_rejected (sample_handler None (Some "mkt1"%string))
                  (get_market_context evt) then "405"%string
             else if match old with Some om => m <? om | None => false end
                     || negb (check_target_info (sample_handler None (Some "mkt1"%string)) evt)
                     || match get_signals evt with None => true | Some _ => false end
                  then "403"%string else "200"%string)]
       else []).
Proof.
  do 2 eexists. split; [vm_compute; reflexivity|].
  eapply (decision_codes_last_failing_check no_reschedule
           (sample_handler None (Some "mkt1"%string)) (Some "req1"%string)
           (Some "vtn1"%string) (mkLoop [] [] ∅)
           (always (sample_event "E1" (Some 1) "mkt2" [simple_price]))
           (store_of [sample_event "E1" (Some 2) "mkt1" [simple_price]])).
  vm_compute. reflexivity.
Defined.

(** C8 (as the code does it): an event without signals is opted out; an
    event with signals, even an empty list (a selected simple signal with no
    interval), is decided by the version, targeting and market-context
    checks alone. *)
Theorem signals_absent_or_admitted h evt m old :
  (get_signals evt = None -> (opt_status h evt m old).1 = "optOut"%string) /\
  (forall l, get_signals evt = Some l ->
     opt_status h evt m old =
       (if market_context_rejected h (get_market_context evt)
        then ("optOut"%string, "405"%string)
        else if match old with Some om => m <? om | None => false end
                || negb (check_target_info h evt)
             then ("optOut"%string, "403"%string)
             else ("optIn"%string, "200"%string))) /\
  (get_signals evt = Some [] <->
     exists sg, select_simple_signal (ev_signals evt) = Some sg /\ sig_intervals sg = []).
Proof.
  split; [|split].
  - intros Hs. rewrite opt_status_eq, Hs, !orb_true_r.
    by destruct (market_context_rejected _ _).
  - intros l Hs. rewrite opt_status_eq, Hs, orb_false_r. reflexivity.
  - unfold get_signals. destruct (select_simple_signal _) as [sg|]; split.
    + intros [=Hnil]. exists sg. split; [done|]. by apply map_eq_nil in Hnil.
    + intros (sg' & [=<-] & Hnil). by rewrite Hnil.
    + done.
    + by intros (? & ? & _).
Qed.

Lemma signals_absent_or_admitted_witness :
  opt_status (sample_handler None (Some "mkt1"%string))
    (sample_event "E1" (Some 1) "mkt1" [simple_price_empty]) 1 None
  = ("optIn"%string, "200"%string).
Proof.
  rewrite (proj1 (proj2 (signals_absent_or_admitted
             (sample_handler None (Some "mkt1"%string))
             (sample_event "E1" (Some 1) "mkt1" [simple_price_empty]) 1 None)) []);
    reflexivity.
Defined.

(** C4 (as the code does it): when the stored version is not older and the
    response is required "always", the iteration leaves the store unchanged
    and records a decision; a strictly smaller modification number is
    answered optOut with 403 (405 when the market context also fails); an
    equal one is not a version conflict and is decided as if nothing were
    stored. *)
Theorem stale_or_duplicate_receipt ro h rq vtn st oe w evt m r0 om
    (Hoe : oe_ei_event oe = Some evt) (Hm : ev_mod evt = Some m)
    (Hr0 : w_db w !! ev_id evt = Some r0) (Hom : ev_mod (row_xml r0) = Some om)
    (Hle : m <= om) (Hrr : oe_response_required oe = Some "always"%string) :
  process_event ro h rq vtn st oe w =
  (w, Some (mkLoop
     (reply_events st ++
       [if m <? om
        then mkDecision (ev_id evt) m rq "optOut"
               (if market_context_rejected h (get_market_context evt)
                then "405" else "403")
        else mkDecision (ev_id evt) m rq (opt_status h evt m None).1
               (opt_status h evt m None).2])
     (all_events st ++ [ev_id evt]) (updated_events st))).
Proof.
  assert (Hge : (om <? m) = false) by (apply Z.ltb_ge; lia).
  unfold process_event, response_eligible, is_new_or_updated. run_monad.
  rewrite Hoe. simpl. rewrite Hm. simpl. rewrite Hr0. simpl. rewrite Hom. simpl.
  rewrite Hrr, Hge. simpl. rewrite !opt_status_eq.
  destruct (m <? om) eqn:Hlt; simpl;
    destruct (market_context_rejected _ _), (check_target_info h evt),
      (get_signals evt); reflexivity.
Qed.

Lemma stale_or_duplicate_receipt_witness :
  process_event no_reschedule (sample_handler None (Some "mkt1"%string))
    (Some "req1"%string) (Some "vtn1"%string) (mkLoop [] [] ∅)
    (always (sample_event "E1" (Some 1) "mkt1" [simple_price]))
    (store_of [sample_event "E1" (Some 1) "mkt1" [simple_price]])
  = (store_of [sample_event "E1" (Some 1) "mkt1" [simple_price]],
     Some (mkLoop [mkDecision (Some "E1"%string) 1 (Some "req1"%string)
                              "optIn"%string "200"%string]
                  [Some "E1"%string] ∅)).
Proof.
  rewrite (stale_or_duplicate_receipt no_reschedule
             (sample_handler None (Some "mkt1"%string)) (Some "req1"%string)
             (Some "vtn1"%string) (mkLoop [] [] ∅)
             (always (sample_event "E1" (Some 1) "mkt1" [simple_price]))
             (store_of [sample_event "E1" (Some 1) "mkt1" [simple_price]])
             (sample_event "E1" (Some 1) "mkt1" [simple_price]) 1
             (mkRow (Some "vtn1"%string) 1
                    (sample_event "E1" (Some 1) "mkt1" [simple_price])) 1);
    [vm_compute; reflexivity|reflexivity|reflexivity|vm_compute; reflexivity
    |reflexivity|lia|reflexivity].
Defined.

Lemma process_event_malformed ro h rq vtn st oe w evt :
  oe_ei_event oe = Some evt -> ev_mod evt = None ->
  process_event ro h rq vtn st oe w = (w, None).
Proof.
  intros Hoe Hm. unfold process_event. run_monad.
  rewrite Hoe. simpl. rewrite Hm. reflexivity.
Qed.

(** C9 (as the code does it): an event whose modification number is not an
    integer makes [handle_payload] raise: the events after it are not
    processed, nothing is removed, the callback is not called and no reply
    is built; the store keeps the writes made for the events before it. *)
Theorem malformed_mod_aborts_pass ro h p w pre oe post evt w1 st
    (Hv : vtn_rejected h (pl_vtn_id p) = false)
    (Hl : pl_events p = pre ++ oe :: post)
    (Hoe : oe_ei_event oe = Some evt) (Hm : ev_mod evt = None)
    (Hpre : foldM (process_event ro h (pl_request_id p) (pl_vtn_id p))
              (mkLoop [] [] ∅) pre w = (w1, Some st)) :
  handle_payload ro h p w = (w1, None).
Proof.
  rewrite handle_payload_accepted by done. rewrite Hl, foldM_app, Hpre.
  simpl. unfold bind. rewrite (process_event_malformed _ _ _ _ _ _ _ evt); done.
Qed.

Lemma malformed_mod_aborts_pass_witness :
  exists w1 st,
    foldM (process_event no_reschedule (sample_handler None None)
             (Some "req1"%string) (Some "vtn1"%string))
      (mkLoop [] [] ∅) [always (sample_event "E2" (Some 1) "mkt1" [simple_price])]
      (store_of []) = (w1, Some st) /\
    handle_payload no_reschedule (sample_handler None None)
      (sample_payload "vtn1"
         [always (sample_event "E2" (Some 1) "mkt1" [simple_price]);
          always (sample_event "E1" None "mkt1" [simple_price]);
          always (sample_event "E3" (Some 1) "mkt1" [simple_price])])
      (store_of []) = (w1, None).
Proof.
  do 2 eexists. split; [vm_compute; reflexivity|].
  eapply (malformed_mod_aborts_pass no_reschedule (sample_handler None None)
            (sample_payload "vtn1"
               [always (sample_event "E2" (Some 1) "mkt1" [simple_price]);
                always (sample_event "E1" None "mkt1" [simple_price]);
                always (sample_event "E3" (Some 1) "mkt1" [simple_price])])
            (store_of [])
            [always (sample_event "E2" (Some 1) "mkt1" [simple_price])]
            (always (sample_event "E1" None "mkt1" [simple_price]))
            [always (sample_event "E3" (Some 1) "mkt1" [simple_price])]
            (sample_event "E1" None "mkt1" [simple_price]));
    [reflexivity|reflexivity|reflexivity|reflexivity|vm_compute; reflexivity].
Defined.

Lemma batch_ids_elem (l : list OadrEvent) oe evt :
  oe ∈ l -> oe_ei_event oe = Some evt -> get_event_id evt ∈ batch_ids l.
Proof.
  intros Hin Hoe. unfold batch_ids. apply list_elem_of_omap.
  exists oe. split; [done|]. by rewrite Hoe.
Qed.

(** Ids outside the batch are not touched by the loop. *)
Lemma loop_frame ro h rq vtn l st w w' r k :
  k ∉ batch_ids l ->
  foldM (process_event ro h rq vtn) st l w = (w', r) ->
  w_db w' !! k = w_db w !! k.
Proof.
  intros Hk Hrun.
  destruct (loop_invariant (fun _ w1 => w_db w1 !! k = w_db w !! k)
              ro h rq vtn l st w w' r) as (stf & Hp & _); [|done|done|done].
  intros st0 w0 oe st1 w1 Hin H0 Hpe.
  pose proof Hpe as Hpe'.
  apply process_event_cases in Hpe as
      [_ (evt & m & Hoe & _ & _ & [(-> & _) | (e' & _ & _ & Hdb & _)])]; [done|].
  rewrite Hdb, lookup_insert_ne; [done|].
  intros Heq. apply Hk. rewrite <- Heq. by eapply batch_ids_elem.
Qed.

(** C5 (as the code does it): each accepted record is written to the store
    inside the loop, as its event is processed: after any prefix of the
    batch, the store the next event is decided and processed against
    already holds every record accepted in that prefix, and the next
    event's decision is computed from that store.  The callback is called
    once, after the loop, and observes the store holding every record it is
    given as updated (the store before the pass for the other ids); the
    implicitly cancelled ids are removed only after it. *)
Theorem callback_after_updates_before_removals ro h p w w' rep
    (Hv : vtn_rejected h (pl_vtn_id p) = false) (Hcb : has_callback h = true)
    (Hrun : handle_payload ro h p w = (w', Some rep)) :
  (forall pre oe post w1 st1,
     pl_events p = pre ++ oe :: post ->
     foldM (process_event ro h (pl_request_id p) (pl_vtn_id p))
       (mkLoop [] [] ∅) pre w = (w1, Some st1) ->
     (forall k e, updated_events st1 !! k = Some e -> row_xml <$> w_db w1 !! k = Some e) /\
     foldM (process_event ro h (pl_request_id p) (pl_vtn_id p))
       (mkLoop [] [] ∅) (pre ++ [oe]) w =
     process_event ro h (pl_request_id p) (pl_vtn_id p) st1 oe w1 /\
     (forall w2 st2,
        process_event ro h (pl_request_id p) (pl_vtn_id p) st1 oe w1 = (w2, Some st2) ->
        exists evt m old, oe_ei_event oe = Some evt /\ ev_mod evt = Some m /\
          ((w_db w1 !! ev_id evt = None /\ old = None) \/
           (exists r0 om, w_db w1 !! ev_id evt = Some r0 /\
                          ev_mod (row_xml r0) = Some om /\ old = Some om)) /\
          reply_events st2 = reply_events st1 ++
            (if response_eligible (oe_response_required oe) m old
             then [mkDecision (ev_id evt) m (pl_request_id p) (opt_status h evt m old).1
                              (opt_status h evt m old).2]
             else []))) /\
  exists upd rm snap,
    w_log w' = w_log w ++ [ECallback upd rm snap] /\
    (forall k e, upd !! k = Some e -> row_xml <$> snap !! k = Some e) /\
    (forall k, k ∉ batch_ids (pl_events p) -> snap !! k = w_db w !! k) /\
    (forall k, w_db w' !! k = match rm !! k with Some _ => None | None => snap !! k end).
Proof.
  split.
  { intros pre oe post w1 st1 _ Hpre. split; [|split].
    - exact (loop_updated_stored _ _ _ _ _ _ _ _ Hpre).
    - rewrite foldM_app, Hpre. cbn [foldM]. unfold bind, ret.
      by destruct (process_event _ _ _ _ _ _ _) as [w2 [st2|]].
    - intros w2 st2 Hpe. exact (process_event_reply _ _ _ _ _ _ _ _ _ Hpe). }
  rewrite handle_payload_accepted in Hrun by done.
  destruct (foldM _ _ _ w) as [w1 [st|]] eqn:Hloop; [|done].
  simpl in Hrun. rewrite Hcb in Hrun. injection Hrun as <- _.
  eexists (updated_events st), _, (w_db w1). split; [|split; [|split]].
  - simpl. by rewrite (loop_log _ _ _ _ _ _ _ _ _ Hloop).
  - apply (loop_updated_stored _ _ _ _ _ _ _ _ Hloop).
  - intros k Hk. apply (loop_frame _ _ _ _ _ _ _ _ _ _ Hk Hloop).
  - intros k. simpl. rewrite remove_events_lookup.
    destruct (decide (k ∈ _)) as [Hin|Hnin].
    + apply removed_keys_elem in Hin as [v ->]. done.
    + destruct (removed_map _ _ _ !! k) eqn:Hrm; [|done].
      exfalso. apply Hnin, removed_keys_elem. by rewrite Hrm.
Qed.

Lemma callback_after_updates_before_removals_witness :
  exists w' rep,
    handle_payload no_reschedule (sample_handler None None)
      (sample_payload "vtn1" [always (sample_event "E1" (Some 1) "mkt1" [simple_price]);
                              always (sample_event "E2" (Some 1) "mkt1" [simple_price])])
      (store_of [sample_event "E0" (Some 3) "mkt1" [simple_price]]) = (w', Some rep) /\
  (forall pre oe post w1 st1,
     [always (sample_event "E1" (Some 1) "mkt1" [simple_price]);
      always (sample_event "E2" (Some 1) "mkt1" [simple_price])] = pre ++ oe :: post ->
     foldM (process_event no_reschedule (sample_handler None None)
              (Some "req1"%string) (Some "vtn1"%string))
       (mkLoop [] [] ∅) pre (store_of [sample_event "E0" (Some 3) "mkt1" [simple_price]])
       = (w1, Some st1) ->
     (forall k e, updated_events st1 !! k = Some e -> row_xml <$> w_db w1 !! k = Some e) /\
     foldM (process_event no_reschedule (sample_handler None None)
              (Some "req1"%string) (Some "vtn1"%string))
       (mkLoop [] [] ∅) (pre ++ [oe]) (store_of [sample_event "E0" (Some 3) "mkt1" [simple_price]]) =
     process_event no_reschedule (sample_handler None None)
       (Some "req1"%string) (Some "vtn1"%string) st1 oe w1 /\
     (forall w2 st2,
        process_event no_reschedule (sample_handler None None)
          (Some "req1"%string) (Some "vtn1"%string) st1 oe w1 = (w2, Some st2) ->
        exists evt m old, oe_ei_event oe = Some evt /\ ev_mod evt = Some m /\
          ((w_db w1 !! ev_id evt = None /\ old = None) \/
           (exists r0 om, w_db w1 !! ev_id evt = Some r0 /\
                          ev_mod (row_xml r0) = Some om /\ old = Some om)) /\
          reply_events st2 = reply_events st1 ++
            (if response_eligible (oe_response_required oe) m old
             then [mkDecision (ev_id evt) m (Some "req1"%string)
                     (opt_status (sample_handler None None) evt m old).1
                     (opt_status (sample_handler None None) evt m old).2]
             else []))) /\
  exists upd rm snap,
    w_log w' = w_log (store_of [sample_event "E0" (Some 3) "mkt1" [simple_price]])
               ++ [ECallback upd rm snap] /\
    (forall k e, upd !! k = Some e -> row_xml <$> snap !! k = Some e) /\
    (forall k, k ∉ batch_ids [always (sample_event "E1" (Some 1) "mkt1" [simple_price]);
                              always (sample_event "E2" (Some 1) "mkt1" [simple_price])] ->
       snap !! k = w_db (store_of [sample_event "E0" (Some 3) "mkt1" [simple_price]]) !! k) /\
    (forall k, w_db w' !! k = match rm !! k with Some _ => None | None => snap !! k end).
Proof.
  do 2 eexists. split; [vm_compute; reflexivity|].
  eapply (callback_after_updates_before_removals no_reschedule
            (sample_handler None None)
            (sample_payload "vtn1"
               [always (sample_event "E1" (Some 1) "mkt1" [simple_price]);
                always (sample_event "E2" (Some 1) "mkt1" [simple_price])])
            (store_of [sample_event "E0" (Some 3) "mkt1" [simple_price]]));
    [reflexivity|reflexivity|vm_compute; reflexivity].
Defined.

Lemma handle_payload_rejected ro h p w :
  vtn_rejected h (pl_vtn_id p) = true ->
  handle_payload ro h p w =
  (w, if lxml_text_ok (ven_id h)
      then Some (ErrorResponse (pl_request_id p) "400"%string
                  ("Unknown vtnID: " ++ py_str (pl_vtn_id p))%string)
      else None).
Proof.
  intros Hv. unfold handle_payload. rewrite Hv.
  unfold build_error_response, ret, raise. by destruct (lxml_text_ok _).
Qed.

(** An id processed by a completed pass is not in the removed map. *)
Lemma seen_not_removed ro h p w w1 st k :
  foldM (process_event ro h (pl_request_id p) (pl_vtn_id p))
        (mkLoop [] [] ∅) (pl_events p) w = (w1, Some st) ->
  k ∈ batch_ids (pl_events p) ->
  removed_map (all_events st)
    (map (fun kv => row_xml kv.2) (map_to_list (w_db w1))) (w_db w1) !! k = None.
Proof.
  intros Hloop Hk.
  destruct (removed_map _ _ _ !! k) eqn:Hrm; [|done].
  destruct (proj1 (removed_map_dom _ _ _ k) (mk_is_Some _ _ Hrm))
    as (evt & _ & _ & Hns).
  exfalso. apply Hns. rewrite (loop_all_events _ _ _ _ _ _ _ _ _ Hloop). done.
Qed.

(** C1: an incoming record whose modification number is not greater than
    the stored one is never persisted.  One iteration of the loop leaves the
    world unchanged in that case (so a record is written only when none is
    stored or the incoming number is strictly greater); and over a whole
    pass, a stored record whose number is at least that of every occurrence
    of its id in the batch is still the stored record afterwards. *)
Theorem monotonic_persistence :
  (forall ro h rq vtn st oe w evt m r0 om,
     oe_ei_event oe = Some evt -> ev_mod evt = Some m ->
     w_db w !! ev_id evt = Some r0 -> ev_mod (row_xml r0) = Some om -> m <= om ->
     (process_event ro h rq vtn st oe w).1 = w) /\
  (forall ro h p w k r om,
     w_db w !! k = Some r -> ev_mod (row_xml r) = Some om ->
     k ∈ batch_ids (pl_events p) ->
     (forall oe evt m, oe ∈ pl_events p -> oe_ei_event oe = Some evt ->
        ev_id evt = k -> ev_mod evt = Some m -> m <= om) ->
     w_db (handle_payload ro h p w).1 !! k = Some r).
Proof.
  split.
  - intros ro h rq vtn st oe w evt m r0 om Hoe Hm Hr0 Hom Hle.
    destruct (process_event ro h rq vtn st oe w) as [w' [st'|]] eqn:Hpe;
      apply process_event_cases in Hpe as [_ Hc]; [|done].
    destruct Hc as (evt' & m' & Hoe' & Hm' & _ & [(-> & _) | (e' & _ & _ & _ & _ & Hold)]);
      [done|].
    rewrite Hoe in Hoe'. injection Hoe' as <-. rewrite Hm in Hm'. injection Hm' as <-.
    destruct Hold as [Hnone | (r1 & om' & Hr1 & Hom' & Hlt)]; [congruence|].
    rewrite Hr0 in Hr1. injection Hr1 as <-. rewrite Hom in Hom'.
    injection Hom' as <-. lia.
  - intros ro h p w k r om Hr Hom Hk Hle.
    destruct (vtn_rejected h (pl_vtn_id p)) eqn:Hv.
    { by rewrite handle_payload_rejected. }
    rewrite handle_payload_accepted by done.
    destruct (foldM _ _ _ w) as [w1 res] eqn:Hloop.
    destruct (loop_invariant (fun _ w2 => w_db w2 !! k = Some r) ro h
                (pl_request_id p) (pl_vtn_id p) (pl_events p) (mkLoop [] [] ∅) w w1 res)
      as (stf & Hw1 & _); [|done|done|].
    { intros st0 w0 oe st1 w2 Hin H0 Hpe.
      apply process_event_cases in Hpe as
          [_ (evt & m & Hoe & Hm & _ & [(-> & _) | (e' & _ & _ & Hdb & _ & Hold)])];
        [done|].
      rewrite Hdb. destruct (decide (ev_id evt = k)) as [Heq|Hne].
      - exfalso. rewrite Heq in Hold.
        destruct Hold as [Hnone | (r1 & om' & Hr1 & Hom' & Hlt)]; [congruence|].
        rewrite H0 in Hr1. injection Hr1 as <-. rewrite Hom in Hom'.
        injection Hom' as <-. specialize (Hle oe evt m Hin Hoe Heq Hm). lia.
      - by rewrite lookup_insert_ne. }
    destruct res as [st|]; [|done]. simpl.
    rewrite remove_events_lookup.
    destruct (decide (k ∈ _)) as [Hin|_]; [|done].
    apply removed_keys_elem in Hin.
    rewrite (seen_not_removed _ _ _ _ _ _ _ Hloop Hk) in Hin. by destruct Hin.
Qed.

Lemma monotonic_persistence_witness :
  (process_event no_reschedule (sample_handler None None) (Some "req1"%string)
     (Some "vtn1"%string) (mkLoop [] [] ∅)
     (always (sample_event "E1" (Some 1) "mkt1" [simple_price]))
     (store_of [sample_event "E1" (Some 2) "mkt1" [simple_price]])).1
  = store_of [sample_event "E1" (Some 2) "mkt1" [simple_price]] /\
  w_db (handle_payload no_reschedule (sample_handler None None)
          (sample_payload "vtn1" [always (sample_event "E1" (Some 2) "mkt1" [])])
          (store_of [sample_event "E1" (Some 2) "mkt1" [simple_price]])).1
    !! Some "E1"%string
  = Some (mkRow (Some "vtn1"%string) 2 (sample_event "E1" (Some 2) "mkt1" [simple_price])).
Proof.
  split.
  - apply (proj1 monotonic_persistence no_reschedule (sample_handler None None)
             (Some "req1"%string) (Some "vtn1"%string) (mkLoop [] [] ∅)
             (always (sample_event "E1" (Some 1) "mkt1" [simple_price]))
             (store_of [sample_event "E1" (Some 2) "mkt1" [simple_price]])
             (sample_event "E1" (Some 1) "mkt1" [simple_price]) 1
             (mkRow (Some "vtn1"%string) 2
                (sample_event "E1" (Some 2) "mkt1" [simple_price])) 2);
      [reflexivity|reflexivity|vm_compute; reflexivity|reflexivity|lia].
  - apply (proj2 monotonic_persistence no_reschedule (sample_handler None None)
             (sample_payload "vtn1" [always (sample_event "E1" (Some 2) "mkt1" [])])
             (store_of [sample_event "E1" (Some 2) "mkt1" [simple_price]])
             (Some "E1"%string)
             (mkRow (Some "vtn1"%string) 2
                (sample_event "E1" (Some 2) "mkt1" [simple_price])) 2);
      [vm_compute; reflexivity|reflexivity|vm_compute; left|].
    intros oe evt m Hin Hoe _ Hm.
    apply list_elem_of_singleton in Hin. subst oe.
    injection Hoe as <-. injection Hm as <-. lia.
Defined.

Lemma loop_keyed ro h rq vtn l st w w' r :
  store_keyed_by_id (w_db w) ->
  foldM (process_event ro h rq vtn) st l w = (w', r) ->
  store_keyed_by_id (w_db w').
Proof.
  intros Hkey Hrun.
  destruct (loop_invariant (fun _ w1 => store_keyed_by_id (w_db w1))
              ro h rq vtn l st w w' r) as (stf & Hp & _); [|done|done|done].
  intros st0 w0 oe st1 w1 _ H0 Hpe.
  apply process_event_cases in Hpe as
      [_ (evt & m & _ & _ & _ & [(-> & _) | (e' & Hid & _ & Hdb & _)])]; [done|].
  intros k r0. rewrite Hdb. destruct (decide (ev_id evt = k)) as [<-|Hne].
  - rewrite lookup_insert_eq. intros [=<-]. done.
  - rewrite lookup_insert_ne by done. apply H0.
Qed.

(** C2 (as the code does it): a pass that passes the VTN check and
    completes, on a store keyed by event id, removes exactly the stored ids
    absent from its batch, gives exactly those to the callback as removed,
    and leaves every id of the batch in the store; a pass rejected for its
    VTN id changes nothing. *)
Theorem implicit_cancellation_accepted_pass :
  (forall ro h p w w' rep,
     vtn_rejected h (pl_vtn_id p) = false -> store_keyed_by_id (w_db w) ->
     handle_payload ro h p w = (w', Some rep) ->
     (forall k, is_Some (w_db w !! k) -> k ∉ batch_ids (pl_events p) ->
        w_db w' !! k = None) /\
     (forall k, k ∈ batch_ids (pl_events p) -> is_Some (w_db w' !! k)) /\
     (has_callback h = true ->
        exists upd rm snap, w_log w' = w_log w ++ [ECallback upd rm snap] /\
          forall k, is_Some (rm !! k) <->
                    is_Some (w_db w !! k) /\ k ∉ batch_ids (pl_events p))) /\
  (forall ro h p w,
     vtn_rejected h (pl_vtn_id p) = true -> (handle_payload ro h p w).1 = w).
Proof.
  split.
  2:{ intros ro h p w Hv. by rewrite handle_payload_rejected. }
  intros ro h p w w' rep Hv Hkey Hrun.
  rewrite handle_payload_accepted in Hrun by done.
  destruct (foldM _ _ _ w) as [w1 [st|]] eqn:Hloop; [|done].
  injection Hrun as <- _.
  pose proof (loop_all_events _ _ _ _ _ _ _ _ _ Hloop) as Hall.
  simpl in Hall.
  pose proof (loop_keyed _ _ _ _ _ _ _ _ _ Hkey Hloop) as Hkey1.
  set (rm := removed_map (all_events st)
               (map (fun kv => row_xml kv.2) (map_to_list (w_db w1))) (w_db w1)).
  assert (Hrm : forall k, is_Some (rm !! k) <->
                          is_Some (w_db w !! k) /\ k ∉ batch_ids (pl_events p)).
  { intros k. unfold rm. rewrite removed_map_dom, Hall. split.
    - intros (evt & Hin & <- & Hns). apply active_events_elem in Hin
        as (k' & r & Hr & <-).
      rewrite (Hkey1 _ _ Hr) in Hns |- *. split; [|done].
      rewrite <- (loop_frame _ _ _ _ _ _ _ _ _ _ Hns Hloop). by rewrite Hr.
    - intros [[r Hr] Hns].
      rewrite <- (loop_frame _ _ _ _ _ _ _ _ _ _ Hns Hloop) in Hr.
      exists (row_xml r). split; [apply active_events_elem; by exists k, r|].
      split; [by apply Hkey1|done]. }
  assert (Hdb : forall k, w_db (mkWorld (foldl (fun d k => delete k d) (w_db w1)
                                    (map fst (map_to_list rm))) (if has_callback h
                 then w_log w1 ++ [ECallback (updated_events st) rm (w_db w1)]
                 else w_log w1)) !! k
                = if decide (is_Some (rm !! k)) then None else w_db w1 !! k).
  { intros k. simpl. rewrite remove_events_lookup.
    destruct (decide (k ∈ _)) as [Hin|Hnin];
      destruct (decide (is_Some (rm !! k))) as [Hs|Hs]; try done.
    - exfalso. by apply Hs, removed_keys_elem.
    - exfalso. by apply Hnin, removed_keys_elem. }
  split; [|split].
  - intros k Hk Hnk. rewrite Hdb.
    destruct (decide (is_Some (rm !! k))) as [_|Hs]; [done|].
    exfalso. apply Hs, Hrm. done.
  - intros k Hk. rewrite Hdb.
    destruct (decide (is_Some (rm !! k))) as [Hs|_].
    + exfalso. apply Hrm in Hs as [_ Hs]. done.
    + apply (loop_seen_stored _ _ _ _ _ _ _ _ Hloop). by rewrite Hall.
  - intros Hcb. simpl. rewrite Hcb.
    exists (updated_events st), rm, (w_db w1). split; [|done].
    by rewrite (loop_log _ _ _ _ _ _ _ _ _ Hloop).
Qed.

Lemma implicit_cancellation_accepted_pass_witness :
  exists w' rep,
    handle_payload no_reschedule (sample_handler None None)
      (sample_payload "vtn1" [always (sample_event "E2" (Some 1) "mkt1" [simple_price])])
      (store_of [sample_event "E1" (Some 1) "mkt1" [simple_price]]) = (w', Some rep) /\
    w_db w' !! Some "E1"%string = None /\
    is_Some (w_db w' !! Some "E2"%string).
Proof.
  do 2 eexists. split; [vm_compute; reflexivity|].
  edestruct (proj1 implicit_cancellation_accepted_pass no_reschedule
               (sample_handler None None)
               (sample_payload "vtn1"
                  [always (sample_event "E2" (Some 1) "mkt1" [simple_price])])
               (store_of [sample_event "E1" (Some 1) "mkt1" [simple_price]]))
    as (Hgone & Hkept & _).
  - reflexivity.
  - intros k r Hr. unfold store_of in Hr. simpl in Hr.
    destruct (decide (Some "E1"%string = k)) as [<-|Hne].
    + rewrite lookup_insert_eq in Hr. by injection Hr as <-.
    + rewrite lookup_insert_ne, lookup_empty in Hr by done. done.
  - vm_compute. reflexivity.
  - split.
    + apply Hgone; [vm_compute; eexists; reflexivity|].
      vm_compute. intros Hin. apply list_elem_of_singleton in Hin. discriminate.
    + apply Hkept. vm_compute. left.
Defined.

(** ** Further properties of the handler *)

Lemma init_lists ven vtns mcs g r p lvl cb :
  vtn_ids (EventHandler_init ven vtns mcs g r p lvl cb) = option_map split_comma vtns /\
  market_contexts (EventHandler_init ven vtns mcs g r p lvl cb) = option_map split_comma mcs /\
  ven_id (EventHandler_init ven vtns mcs g r p lvl cb) = ven.
Proof.
  unfold EventHandler_init.
  destruct (bool_decide (lvl = OADR_PROFILE_20A)); [done|].
  by destruct (bool_decide (lvl = OADR_PROFILE_20B)).
Qed.

Lemma allowlist_rejects (x : text) (l : list string) :
  l <> [] -> truthy_list l && negb (py_in x (map Some l)) = true <-> x ∉ map Some l.
Proof.
  intros Hne. destruct l as [|y l]; [done|]. cbn [truthy_list andb].
  rewrite negb_true_iff.
  destruct (py_in x (map Some (y :: l))) eqn:Hin.
  - apply py_in_true in Hin. split; [done|]. intros Hn. done.
  - split; [|done]. intros _ Hm. apply py_in_true in Hm. congruence.
Qed.

Lemma split_comma_nonempty s : split_comma s <> [].
Proof.
  destruct s as [|a s']; simpl; [done|].
  destruct (bool_decide _); [done|]. by destruct (split_comma s').
Qed.

Lemma join_comma_cons_char a x r :
  join_comma (String a x :: r) = String a (join_comma (x :: r)).
Proof. destruct r; reflexivity. Qed.

Lemma join_comma_cons_empty l :
  l <> [] -> join_comma (EmptyString :: l) = String ","%char (join_comma l).
Proof. destruct l; [done|]. reflexivity. Qed.

(** [str.split(',')] as used by [__init__]: joining the pieces with commas
    gives the string back, there is one piece more than there are commas,
    and no piece contains a comma. *)
Theorem split_comma_roundtrip s :
  join_comma (split_comma s) = s /\
  length (split_comma s) = S (count_commas s) /\
  (forall x, x ∈ split_comma s -> ","%char ∉ list_ascii_of_string x).
Proof.
  unfold count_commas.
  induction s as [|a s' IH]; cbn [split_comma list_ascii_of_string].
  - split; [done|]. split; [done|]. intros x Hx.
    apply list_elem_of_singleton in Hx as ->. simpl. set_solver.
  - destruct IH as (IHj & IHl & IHc).
    destruct (bool_decide (a = ","%char)) eqn:Ha.
    + apply bool_decide_eq_true in Ha as ->.
      rewrite filter_cons_True by done.
      split; [|split].
      * pose proof (split_comma_nonempty s') as Hne.
        rewrite join_comma_cons_empty by done. by rewrite IHj.
      * simpl. by rewrite IHl.
      * intros x Hx. apply elem_of_cons in Hx as [->|Hx]; [simpl; set_solver|].
        by apply IHc.
    + apply bool_decide_eq_false in Ha.
      rewrite filter_cons_False by done.
      pose proof (split_comma_nonempty s') as Hne.
      destruct (split_comma s') as [|x r]; [done|].
      split; [|split].
      * rewrite join_comma_cons_char. by rewrite IHj.
      * done.
      * intros y Hy. apply elem_of_cons in Hy as [->|Hy].
        -- simpl. intros Hin. apply elem_of_cons in Hin as [Hin|Hin]; [done|].
           apply (IHc x); [by left|done].
        -- apply IHc. by right.
Qed.



(** The market-context filter: with [market_contexts] given as a CSV
    string an event is filtered exactly when its market context is not one
    of the items (a missing market context is always filtered); without
    [market_contexts] no event is filtered. *)
Theorem csv_market_context_filter ven vtns csv g r p lvl cb mc :
  (market_context_rejected (EventHandler_init ven vtns (Some csv) g r p lvl cb) mc = true
     <-> mc ∉ map Some (split_comma csv)) /\
  market_context_rejected (EventHandler_init ven vtns None g r p lvl cb) mc = false.
Proof.
  unfold market_context_rejected. rewrite !(proj1 (proj2 (init_lists _ _ _ _ _ _ _ _))).
  split; [|reflexivity].
  apply allowlist_rejects, split_comma_nonempty.
Qed.

(** [__init__] always ends with one of the two profiles and the namespace
    map that goes with it. *)
Theorem init_profile_consistent ven vtns mcs g r p lvl cb :
  (oadr_profile_level (EventHandler_init ven vtns mcs g r p lvl cb) = OADR_PROFILE_20A /\
   ns_map (EventHandler_init ven vtns mcs g r p lvl cb) = NS_A) \/
  (oadr_profile_level (EventHandler_init ven vtns mcs g r p lvl cb) = OADR_PROFILE_20B /\
   ns_map (EventHandler_init ven vtns mcs g r p lvl cb) = NS_B).
Proof.
  unfold EventHandler_init.
  destruct (bool_decide (lvl = OADR_PROFILE_20A)) eqn:Ha.
  - apply bool_decide_eq_true in Ha. left. by split.
  - destruct (bool_decide (lvl = OADR_PROFILE_20B)) eqn:Hb.
    + apply bool_decide_eq_true in Hb. right. by split.
    + left. by split.
Qed.

(** An iteration for an event marked "never" records no decision. *)
Lemma process_event_never ro h rq vtn st oe w w' st' :
  oe_response_required oe = Some "never"%string ->
  process_event ro h rq vtn st oe w = (w', Some st') ->
  reply_events st' = reply_events st.
Proof.
  intros Hrr Hpe.
  apply process_event_reply in Hpe as (evt & m & old & _ & _ & _ & ->).
  unfold response_eligible. rewrite Hrr, (bool_decide_eq_true_2 _ eq_refl).
  rewrite andb_false_r. apply app_nil_r.
Qed.

(** responseRequired "never": when every event of an accepted batch is
    marked "never", a pass that completes answers nothing, whatever it
    stores. *)
Theorem all_never_no_reply ro h p w w' rep
    (Hv : vtn_rejected h (pl_vtn_id p) = false)
    (Hnever : forall oe, oe ∈ pl_events p ->
                oe_response_required oe = Some "never"%string)
    (Hrun : handle_payload ro h p w = (w', Some rep)) :
  rep = NoReply.
Proof.
  rewrite handle_payload_accepted in Hrun by done.
  destruct (foldM _ _ _ w) as [w1 [st|]] eqn:Hloop; [|done].
  simpl in Hrun. injection Hrun as _ Hrep.
  destruct (loop_invariant (fun st0 _ => reply_events st0 = []) ro h
              (pl_request_id p) (pl_vtn_id p) (pl_events p) (mkLoop [] [] ∅) w w1 (Some st))
    as (stf & Hp & Heq); [|done|done|].
  - intros st0 w0 oe st1 w1' Hin H0 Hpe.
    rewrite (process_event_never _ _ _ _ _ _ _ _ _ (Hnever oe Hin) Hpe). done.
  - rewrite (Heq st eq_refl), Hp in Hrep. simpl in Hrep. by injection Hrep.
Qed.

Lemma all_never_no_reply_witness :
  exists w' rep,
    handle_payload no_reschedule (sample_handler None None)
      (sample_payload "vtn1" [never_event (sample_event "e1" (Some 1) "mc" [simple_price])])
      (store_of []) = (w', Some rep) /\ rep = NoReply.
Proof.
  eexists _, _. split; [vm_compute; reflexivity|].
  eapply (all_never_no_reply no_reschedule (sample_handler None None)
            (sample_payload "vtn1" [never_event (sample_event "e1" (Some 1) "mc" [simple_price])])
            (store_of [])).
  - reflexivity.
  - intros oe Hin. apply list_elem_of_singleton in Hin as ->. reflexivity.
  - vm_compute. reflexivity.
Defined.

Lemma batch_ids_length (l : list OadrEvent) : (length (batch_ids l) <= length l)%nat.
Proof.
  unfold batch_ids. induction l as [|oe l IH]; [simpl; lia|].
  simpl. destruct (get_event_id <$> oe_ei_event oe); simpl;
    [apply le_n_S|apply le_S]; exact IH.
Qed.

(** The decisions of a completed loop: their ids follow the batch ids in
    order, and each one carries the given requestID. *)
Lemma loop_decisions ro h rq vtn l w w1 st :
  foldM (process_event ro h rq vtn) (mkLoop [] [] ∅) l w = (w1, Some st) ->
  sublist (map d_id (reply_events st)) (batch_ids l) /\
  Forall (fun d => d_request_id d = rq) (reply_events st).
Proof.
  intros Hloop.
  destruct (loop_invariant
              (fun st0 _ => sublist (map d_id (reply_events st0)) (all_events st0) /\
                 Forall (fun d => d_request_id d = rq) (reply_events st0))
              ro h rq vtn l (mkLoop [] [] ∅)
              w w1 (Some st)) as (stf & [Hsub Hrq] & Heq); [|split; constructor|done|].
  - intros st0 w0 oe st1 w1' _ [Hs0 Hr0] Hpe.
    pose proof Hpe as Hpe'.
    apply process_event_reply in Hpe as (evt & m & old & Hoe & _ & _ & Hrep1).
    apply process_event_cases in Hpe' as [_ (evt' & m' & Hoe' & _ & Hall & _)].
    rewrite Hoe in Hoe'. injection Hoe' as <-.
    rewrite Hrep1, Hall, map_app. split.
    + apply sublist_app; [done|].
      destruct (response_eligible _ _ _); simpl; [done|apply sublist_nil_l].
    + apply Forall_app. split; [done|].
      destruct (response_eligible _ _ _); constructor; done.
  - pose proof (Heq st eq_refl) as Hst. subst stf.
    rewrite (loop_all_events _ _ _ _ _ _ _ _ _ Hloop) in Hsub. by split.
Qed.

(** The reply built by a completed pass: [CreatedPayload] is returned only
    with at least one decision; the ids of its decisions follow the events
    of the batch in order, at most one per event, and every decision carries
    the requestID of the payload. *)
Theorem created_payload_decisions ro h p w w' ds
    (Hrun : handle_payload ro h p w = (w', Some (CreatedPayload ds))) :
  ds <> [] /\
  sublist (map d_id ds) (batch_ids (pl_events p)) /\
  (length ds <= length (pl_events p))%nat /\
  Forall (fun d => d_request_id d = pl_request_id p) ds.
Proof.
  destruct (vtn_rejected h (pl_vtn_id p)) eqn:Hv.
  { rewrite handle_payload_rejected in Hrun by done.
    destruct (lxml_text_ok _); discriminate. }
  rewrite handle_payload_accepted in Hrun by done.
  destruct (foldM _ _ _ w) as [w1 [st|]] eqn:Hloop; [|done].
  simpl in Hrun. injection Hrun as _ Hrep.
  destruct (loop_decisions _ _ _ _ _ _ _ _ Hloop) as [Hsub Hrq].
  destruct (reply_events st) as [|d ds'] eqn:Hr; simpl in Hrep; [done|].
  destruct (created_payload_ok _ _); [|done].
  injection Hrep as <-. split; [done|]. split; [done|]. split; [|done].
  etrans; [|apply batch_ids_length].
  rewrite <- (length_map d_id (d :: ds')). by apply sublist_length.
Qed.

Lemma created_payload_decisions_witness :
  exists w' ds,
    handle_payload no_reschedule (sample_handler None None)
      (sample_payload "vtn1" [always (sample_event "e1" (Some 1) "mc" [simple_price])])
      (store_of []) = (w', Some (CreatedPayload ds)) /\
    ds <> [] /\
    sublist (map d_id ds)
      (batch_ids [always (sample_event "e1" (Some 1) "mc" [simple_price])]) /\
    (length ds <= 1)%nat /\ Forall (fun d => d_request_id d = Some "req1"%string) ds.
Proof.
  eexists _, _. split; [vm_compute; reflexivity|].
  eapply (created_payload_decisions no_reschedule (sample_handler None None)
            (sample_payload "vtn1" [always (sample_event "e1" (Some 1) "mc" [simple_price])])
            (store_of [])).
  vm_compute. reflexivity.
Defined.

(** First sight of an event id: an iteration that completes for an id the
    store does not hold stores the record under that id, with the payload's
    vtnID and the incoming modificationNumber, hands it to the callback as
    updated, and records a decision unless responseRequired is "never". *)
Theorem first_sight_stored_and_answered ro h rq vtn st oe w w' st' evt m
    (Hoe : oe_ei_event oe = Some evt) (Hm : ev_mod evt = Some m)
    (Hnew : w_db w !! ev_id evt = None)
    (Hpe : process_event ro h rq vtn st oe w = (w', Some st')) :
  (exists e', ev_id e' = ev_id evt /\ ev_mod e' = Some m /\
     w_db w' = <[ev_id evt := mkRow vtn m e']> (w_db w) /\
     updated_events st' !! ev_id evt = Some e') /\
  (oe_response_required oe <> Some "never"%string ->
     reply_events st' = reply_events st ++
       [mkDecision (ev_id evt) m rq (opt_status h evt m None).1
                   (opt_status h evt m None).2]).
Proof.
  pose proof Hpe as Hpe'.
  split.
  - apply process_event_cases in Hpe as
        [_ (evt1 & m1 & Hoe1 & Hm1 & _ & Hcase)].
    rewrite Hoe in Hoe1. injection Hoe1 as <-. rewrite Hm in Hm1. injection Hm1 as <-.
    destruct Hcase as [(_ & _ & r0 & om & Hr0 & _) | (e' & Hid & Hme & Hdb & Hupd & _)].
    + congruence.
    + exists e'. do 3 (split; [done|]). rewrite Hupd. apply lookup_insert_eq.
  - intros Hrr.
    apply process_event_reply in Hpe' as (evt1 & m1 & old & Hoe1 & Hm1 & Hold & ->).
    rewrite Hoe in Hoe1. injection Hoe1 as <-. rewrite Hm in Hm1. injection Hm1 as <-.
    destruct Hold as [[_ ->] | (r0 & om & Hr0 & _)]; [|congruence].
    unfold response_eligible. simpl.
    by rewrite (bool_decide_eq_false_2 _ Hrr).
Qed.

Lemma first_sight_stored_and_answered_witness :
  exists w' st',
    process_event no_reschedule (sample_handler None None) (Some "req1"%string)
      (Some "vtn1"%string) (mkLoop [] [] ∅)
      (always (sample_event "e1" (Some 1) "mc" [simple_price])) (store_of [])
    = (w', Some st') /\
    (exists e', ev_id e' = Some "e1"%string /\ ev_mod e' = Some 1 /\
       w_db w' = <[Some "e1"%string := mkRow (Some "vtn1"%string) 1 e']> ∅ /\
       updated_events st' !! Some "e1"%string = Some e') /\
    (Some "always"%string <> Some "never"%string ->
       reply_events st' =
         [mkDecision (Some "e1"%string) 1 (Some "req1"%string)
            (opt_status (sample_handler None None)
               (sample_event "e1" (Some 1) "mc" [simple_price]) 1 None).1
            (opt_status (sample_handler None None)
               (sample_event "e1" (Some 1) "mc" [simple_price]) 1 None).2]).
Proof.
  eexists _, _. split; [vm_compute; reflexivity|].
  exact (first_sight_stored_and_answered no_reschedule (sample_handler None None)
           (Some "req1"%string) (Some "vtn1"%string) (mkLoop [] [] ∅)
           (always (sample_event "e1" (Some 1) "mc" [simple_price])) (store_of [])
           _ _ (sample_event "e1" (Some 1) "mc" [simple_price]) 1
           eq_refl eq_refl eq_refl (eq_refl _)).
Defined.

(** The record an iteration writes: the incoming record itself when the
    event has no start tolerance, and otherwise the incoming record with
    only its start replaced by the scheduler's result (an event with a
    tolerance but no start raises instead). *)
Theorem written_record_rescheduled ro h rq vtn st oe w w' st' evt
    (Hoe : oe_ei_event oe = Some evt)
    (Hpe : process_event ro h rq vtn st oe w = (w', Some st')) :
  w' = w \/
  exists m e', ev_mod evt = Some m /\
    w_db w' = <[ev_id evt := mkRow vtn m e']> (w_db w) /\
    w_log w' = w_log w /\
    (if truthy_text (ev_start_before evt) || truthy_text (ev_start_after evt)
     then exists s, ev_dtstart evt <> None /\
            ro (ev_dtstart evt) (ev_start_before evt) (ev_start_after evt) = Some s /\
            e' = set_active_period_start evt s
     else e' = evt).
Proof.
  revert Hpe. unfold process_event. run_monad. intros H.
  rewrite Hoe in H. simpl in H.
  destruct (ev_mod evt) as [m|] eqn:Hm; simpl in H; [|done].
  destruct (w_db w !! ev_id evt) as [r0|] eqn:Hr0; simpl in H.
  - destruct (ev_mod (row_xml r0)) as [om|] eqn:Hom; simpl in H; [|done].
    unfold is_new_or_updated in H. destruct (om <? m); [|left; by simplify_eq].
    unfold get_start_before_after in H. simpl in H.
    destruct (truthy_text (ev_start_before evt) || truthy_text (ev_start_after evt))
      eqn:Htol.
    + destruct (ro _ _ _) as [ns|] eqn:Hro; simpl in H; [|done].
      destruct (ev_dtstart evt) as [d|] eqn:Hd; simpl in H; [|done].
      unfold get_mod_number, get_or_raise, ret in H. simpl in H.
      try rewrite Hm in H. simpl in H.
      injection H as <- _. right. exists m, (set_active_period_start evt ns).
      do 3 (split; [done|]). exists ns. by repeat split.
    + unfold get_mod_number, get_or_raise, ret in H. rewrite Hm in H. simpl in H.
      injection H as <- _. right. exists m, evt.
      do 3 (split; [done|]). done.
  - unfold is_new_or_updated in H.
    unfold get_start_before_after in H. simpl in H.
    destruct (truthy_text (ev_start_before evt) || truthy_text (ev_start_after evt))
      eqn:Htol.
    + destruct (ro _ _ _) as [ns|] eqn:Hro; simpl in H; [|done].
      destruct (ev_dtstart evt) as [d|] eqn:Hd; simpl in H; [|done].
      unfold get_mod_number, get_or_raise, ret in H. simpl in H.
      try rewrite Hm in H. simpl in H.
      injection H as <- _. right. exists m, (set_active_period_start evt ns).
      do 3 (split; [done|]). exists ns. by repeat split.
    + unfold get_mod_number, get_or_raise, ret in H. rewrite Hm in H. simpl in H.
      injection H as <- _. right. exists m, evt.
      do 3 (split; [done|]). done.
Qed.

Lemma written_record_rescheduled_witness :
  exists w' st',
    process_event fixed_offset (sample_handler None None) (Some "req1"%string)
      (Some "vtn1"%string) (mkLoop [] [] ∅) (always (tolerant_event "e1" 1))
      (store_of []) = (w', Some st') /\
    (w' = store_of [] \/
     exists m e', ev_mod (tolerant_event "e1" 1) = Some m /\
       w_db w' = <[Some "e1"%string := mkRow (Some "vtn1"%string) m e']> (w_db (store_of [])) /\
       w_log w' = w_log (store_of []) /\
       (if truthy_text (Some "PT10M"%string) || truthy_text (Some "PT10M"%string)
        then exists s, Some "2026-10-16T00:00:00Z"%string <> None /\
               fixed_offset (Some "2026-10-16T00:00:00Z"%string) (Some "PT10M"%string)
                 (Some "PT10M"%string) = Some s /\
               e' = set_active_period_start (tolerant_event "e1" 1) s
        else e' = tolerant_event "e1" 1)).
Proof.
  eexists _, _. split; [vm_compute; reflexivity|].
  exact (written_record_rescheduled fixed_offset (sample_handler None None)
           (Some "req1"%string) (Some "vtn1"%string) (mkLoop [] [] ∅)
           (always (tolerant_event "e1" 1)) (store_of []) _ _ (tolerant_event "e1" 1)
           eq_refl (eq_refl _)).
Defined.

Lemma bind_ret_l {A B} (a : A) (k : A -> M B) w : bind (ret a) k w = k a w.
Proof. reflexivity. Qed.

Lemma process_event_no_tolerance ro ro' h rq vtn st oe w :
  (forall evt, oe_ei_event oe = Some evt ->
     truthy_text (ev_start_before evt) = false /\ truthy_text (ev_start_after evt) = false) ->
  process_event ro h rq vtn st oe w = process_event ro' h rq vtn st oe w.
Proof.
  intros Hno. unfold process_event.
  destruct (oe_ei_event oe) as [evt|] eqn:Hoe; [|done].
  destruct (Hno evt eq_refl) as [Hb Ha].
  unfold get_or_raise. rewrite !bind_ret_l.
  cbv beta zeta iota delta [get_start_before_after fst snd].
  rewrite Hb, Ha. reflexivity.
Qed.

(** [schedule.random_offset] is consulted only for events with a start
    tolerance: on a batch without any, the pass behaves the same whatever
    the scheduler does. *)
Theorem scheduler_unused_without_tolerance ro ro' h p w
    (Hno : forall oe evt, oe ∈ pl_events p -> oe_ei_event oe = Some evt ->
             truthy_text (ev_start_before evt) = false /\
             truthy_text (ev_start_after evt) = false) :
  handle_payload ro h p w = handle_payload ro' h p w.
Proof.
  unfold handle_payload. destruct (vtn_rejected h (pl_vtn_id p)); [done|].
  unfold bind at 1 3.
  assert (Hloop : forall l st w0, (forall oe, oe ∈ l -> oe ∈ pl_events p) ->
            foldM (process_event ro h (pl_request_id p) (pl_vtn_id p)) st l w0 =
            foldM (process_event ro' h (pl_request_id p) (pl_vtn_id p)) st l w0).
  { induction l as [|oe l IH]; intros st w0 Hsub; [done|]. cbn [foldM].
    unfold bind.
    rewrite (process_event_no_tolerance ro ro')
      by (intros evt Hoe; apply (Hno oe evt); [apply Hsub; by left|done]).
    destruct (process_event ro' _ _ _ _ _ _) as [w1 [st1|]]; [|done].
    apply IH. intros oe' Hin. apply Hsub. by right. }
  by rewrite Hloop.
Qed.

Lemma scheduler_unused_without_tolerance_witness :
  handle_payload no_reschedule (sample_handler None None)
    (sample_payload "vtn1" [always (sample_event "e1" (Some 1) "mc" [simple_price])])
    (store_of [])
  = handle_payload fixed_offset (sample_handler None None)
    (sample_payload "vtn1" [always (sample_event "e1" (Some 1) "mc" [simple_price])])
    (store_of []).
Proof.
  apply scheduler_unused_without_tolerance.
  intros oe evt Hin Hoe. apply list_elem_of_singleton in Hin as ->.
  injection Hoe as <-. split; reflexivity.
Defined.

(** Every pass keeps the store keyed by event id: each record it holds
    afterwards sits under its own id, if that was so before. *)
Theorem handle_payload_keeps_store_keyed ro h p w :
  store_keyed_by_id (w_db w) ->
  store_keyed_by_id (w_db (handle_payload ro h p w).1).
Proof.
  intros Hkey.
  destruct (vtn_rejected h (pl_vtn_id p)) eqn:Hv.
  { by rewrite handle_payload_rejected. }
  rewrite handle_payload_accepted by done.
  destruct (foldM _ _ _ w) as [w1 [st|]] eqn:Hloop;
    pose proof (loop_keyed _ _ _ _ _ _ _ _ _ Hkey Hloop) as Hk1; [|done].
  simpl. intros k r. rewrite remove_events_lookup.
  destruct (decide _); [done|]. apply Hk1.
Qed.

Lemma handle_payload_keeps_store_keyed_witness :
  store_keyed_by_id (w_db (store_of [sample_event "e1" (Some 1) "mc" [simple_price]])) /\
  store_keyed_by_id
    (w_db (handle_payload no_reschedule (sample_handler None None)
             (sample_payload "vtn1" [always (sample_event "e2" (Some 1) "mc" [simple_price])])
             (store_of [sample_event "e1" (Some 1) "mc" [simple_price]])).1).
Proof.
  assert (H0 : store_keyed_by_id
                 (w_db (store_of [sample_event "e1" (Some 1) "mc" [simple_price]]))).
  { intros k r. simpl. rewrite insert_empty.
    destruct (decide (Some "e1"%string = k)) as [<-|Hne].
    - rewrite lookup_singleton_eq. intros [=<-]. reflexivity.
    - rewrite lookup_singleton_ne by done. done. }
  split; [done|]. by apply handle_payload_keeps_store_keyed.
Defined.

(** A pass never invents records: every id the store holds afterwards was
    held before or is the id of an event of the batch. *)
Theorem handle_payload_no_foreign_ids ro h p w k :
  is_Some (w_db (handle_payload ro h p w).1 !! k) ->
  is_Some (w_db w !! k) \/ k ∈ batch_ids (pl_events p).
Proof.
  assert (Hloop : forall w1 st r,
    foldM (process_event ro h (pl_request_id p) (pl_vtn_id p)) st (pl_events p) w = (w1, r) ->
    is_Some (w_db w1 !! k) -> is_Some (w_db w !! k) \/ k ∈ batch_ids (pl_events p)).
  { intros w1 st r Hrun.
    destruct (loop_invariant (fun _ w0 => is_Some (w_db w0 !! k) ->
                is_Some (w_db w !! k) \/ k ∈ batch_ids (pl_events p))
                ro h (pl_request_id p) (pl_vtn_id p) (pl_events p) st w w1 r)
      as (stf & Hp & _); [|by left|done|done].
    intros st0 w0 oe st1 w1' Hin H0 Hpe.
    apply process_event_cases in Hpe as
        [_ (evt & m & Hoe & _ & _ & [(-> & _) | (e' & _ & _ & Hdb & _)])]; [done|].
    rewrite Hdb. destruct (decide (ev_id evt = k)) as [<-|Hne].
    - intros _. right. by eapply batch_ids_elem.
    - rewrite lookup_insert_ne by done. apply H0. }
  destruct (vtn_rejected h (pl_vtn_id p)) eqn:Hv.
  { rewrite handle_payload_rejected by done. simpl. by left. }
  rewrite handle_payload_accepted by done.
  destruct (foldM _ _ _ w) as [w1 [st|]] eqn:Hrun; simpl.
  - rewrite remove_events_lookup. destruct (decide _); [by intros []|].
    by apply (Hloop w1 _ _ Hrun).
  - by apply (Hloop w1 _ _ Hrun).
Qed.

(** The modificationNumber of a stored record never goes down: if the store
    held a record of id [k] with a readable modificationNumber [om] before a
    pass, any record of id [k] after it has one of at least [om]. *)
Theorem stored_mod_never_decreases ro h p w k r om r'
    (Hr : w_db w !! k = Some r) (Hom : ev_mod (row_xml r) = Some om)
    (Hr' : w_db (handle_payload ro h p w).1 !! k = Some r') :
  exists om', ev_mod (row_xml r') = Some om' /\ om <= om'.
Proof.
  assert (Hloop : forall w1 st res,
    foldM (process_event ro h (pl_request_id p) (pl_vtn_id p)) st (pl_events p) w = (w1, res) ->
    exists r1 om1, w_db w1 !! k = Some r1 /\ ev_mod (row_xml r1) = Some om1 /\ om <= om1).
  { intros w1 st res Hrun.
    destruct (loop_invariant (fun _ w0 => exists r1 om1, w_db w0 !! k = Some r1 /\
                ev_mod (row_xml r1) = Some om1 /\ om <= om1)
                ro h (pl_request_id p) (pl_vtn_id p) (pl_events p) st w w1 res)
      as (stf & Hp & _); [|exists r, om; split; [done|]; split; [done|lia]|done|done].
    intros st0 w0 oe st1 w1' _ (r1 & om1 & Hr1 & Hom1 & Hle) Hpe.
    apply process_event_cases in Hpe as
        [_ (evt & m & Hoe & _ & _ & [(-> & _) | (e' & _ & Hme & Hdb & _ & Hold)])].
    { by exists r1, om1. }
    rewrite Hdb. destruct (decide (ev_id evt = k)) as [<-|Hne].
    - rewrite lookup_insert_eq. exists (mkRow (pl_vtn_id p) m e'), m.
      split; [done|]. split; [done|].
      destruct Hold as [Hnone | (r0 & om0 & Hr0 & Hom0 & Hlt)]; [congruence|].
      rewrite Hr1 in Hr0. injection Hr0 as <-. rewrite Hom1 in Hom0.
      injection Hom0 as <-. lia.
    - rewrite lookup_insert_ne by done. by exists r1, om1. }
  destruct (vtn_rejected h (pl_vtn_id p)) eqn:Hv.
  { rewrite handle_payload_rejected in Hr' by done. simpl in Hr'.
    rewrite Hr in Hr'. injection Hr' as <-. exists om. split; [done|lia]. }
  rewrite handle_payload_accepted in Hr' by done.
  destruct (foldM _ _ _ w) as [w1 [st|]] eqn:Hrun; simpl in Hr'.
  - rewrite remove_events_lookup in Hr'. destruct (decide _); [done|].
    destruct (Hloop w1 _ _ Hrun) as (r1 & om1 & Hr1 & Hom1 & Hle).
    rewrite Hr1 in Hr'. injection Hr' as <-. by exists om1.
  - destruct (Hloop w1 _ _ Hrun) as (r1 & om1 & Hr1 & Hom1 & Hle).
    rewrite Hr1 in Hr'. injection Hr' as <-. by exists om1.
Qed.

Lemma stored_mod_never_decreases_witness :
  exists r',
    w_db (handle_payload no_reschedule (sample_handler None None)
            (sample_payload "vtn1" [always (sample_event "e1" (Some 2) "mc" [simple_price])])
            (store_of [sample_event "e1" (Some 1) "mc" [simple_price]])).1
      !! Some "e1"%string = Some r' /\
    exists om', ev_mod (row_xml r') = Some om' /\ 1 <= om'.
Proof.
  eexists. split; [vm_compute; reflexivity|].
  eapply (stored_mod_never_decreases no_reschedule (sample_handler None None)
            (sample_payload "vtn1" [always (sample_event "e1" (Some 2) "mc" [simple_price])])
            (store_of [sample_event "e1" (Some 1) "mc" [simple_price]])
            (Some "e1"%string)
            (mkRow (Some "vtn1"%string) 1 (sample_event "e1" (Some 1) "mc" [simple_price]))).
  - vm_compute. reflexivity.
  - reflexivity.
  - vm_compute. reflexivity.
Defined.

(** The callback is called at most once per pass, and only by a pass that
    passes the VTN check and whose loop over the events completes, with a
    callback registered; [build_created_payload] may still raise after
    it. *)
Theorem callback_at_most_once ro h p w :
  w_log (handle_payload ro h p w).1 = w_log w \/
  (has_callback h = true /\ vtn_rejected h (pl_vtn_id p) = false /\
   (exists w1 st, foldM (process_event ro h (pl_request_id p) (pl_vtn_id p))
                    (mkLoop [] [] ∅) (pl_events p) w = (w1, Some st)) /\
   exists e, w_log (handle_payload ro h p w).1 = w_log w ++ [e]).
Proof.
  destruct (vtn_rejected h (pl_vtn_id p)) eqn:Hv.
  { rewrite handle_payload_rejected by done. by left. }
  rewrite handle_payload_accepted by done.
  destruct (foldM _ _ _ w) as [w1 [st|]] eqn:Hrun; simpl.
  - rewrite (loop_log _ _ _ _ _ _ _ _ _ Hrun).
    destruct (has_callback h) eqn:Hcb; [|by left].
    right. split; [done|]. split; [done|]. split; [by exists w1, st|]. by eexists.
  - left. exact (loop_log _ _ _ _ _ _ _ _ _ Hrun).
Qed.






(** An id the handler was not given ([None]) matches a target element that
    has no text: an event whose target list holds such an element is
    accepted by a handler without that id. *)
Theorem unset_id_matches_empty_target h evt
    (Hempty : (party_id h = None /\ None ∈ get_party_ids evt) \/
              (group_id h = None /\ None ∈ get_group_ids evt) \/
              (resource_id h = None /\ None ∈ get_resource_ids evt) \/
              (ven_id h = None /\ None ∈ get_ven_ids evt)) :
  check_target_info h evt = true.
Proof.
  rewrite check_target_info_bool, !orb_true_iff, !py_in_true.
  destruct Hempty as [[-> ?]|[[-> ?]|[[-> ?]|[-> ?]]]]; tauto.
Qed.

Lemma unset_id_matches_empty_target_witness :
  check_target_info (sample_handler None None)
    (mkEiEvent (Some "e1"%string) (Some 1) (Some "far"%string) (Some "mc"%string)
       (Some "2026-10-16T00:00:00Z"%string) None None [] [None] [] [] [simple_price])
  = true.
Proof.
  apply unset_id_matches_empty_target. right. left. split; [reflexivity|].
  apply list_elem_of_singleton. reflexivity.
Defined.

Lemma handle_payload_no_foreign_ids_witness :
  is_Some (w_db (handle_payload no_reschedule (sample_handler None None)
                   (sample_payload "vtn1" [always (sample_event "e2" (Some 1) "mc" [simple_price])])
                   (store_of [sample_event "e1" (Some 1) "mc" [simple_price]])).1
             !! Some "e2"%string) /\
  (is_Some (w_db (store_of [sample_event "e1" (Some 1) "mc" [simple_price]])
              !! Some "e2"%string) \/
   Some "e2"%string ∈ batch_ids [always (sample_event "e2" (Some 1) "mc" [simple_price])]).
Proof.
  assert (H : is_Some (w_db (handle_payload no_reschedule (sample_handler None None)
                   (sample_payload "vtn1" [always (sample_event "e2" (Some 1) "mc" [simple_price])])
                   (store_of [sample_event "e1" (Some 1) "mc" [simple_price]])).1
             !! Some "e2"%string)).
  { vm_compute. eexists. reflexivity. }
  split; [exact H|]. exact (handle_payload_no_foreign_ids _ _ _ _ _ H).
Defined.
